(** * The Lookup combobox of react-lightning-design-system

    A shallow embedding of [src/scripts/Lookup.tsx] (with the parts of
    [FormElement.tsx] it renders through) and the properties of its state
    machine: what is rendered in which state, what each handler of the
    orchestrator does to the state and which caller callbacks it invokes, the
    key handling of the search field, the roving focus of the candidate list
    and the choice of the active scope.

    Handlers are written in a small state-and-log monad: the state is the
    record of cells the component owns through its hooks, the log lists in
    program order the effects a handler performs (caller callbacks invoked,
    timers scheduled, DOM calls). *)

From Stdlib Require Import List String Bool Arith Lia.
Import ListNotations.
Open Scope string_scope.
Open Scope list_scope.

(* ------------------------------------------------------------------ *)
(** * Data model *)

(** Modelled from the spec: the type [IconCategory] of ./Icon, which is not
    part of the sources at hand; the spec gives [category] as an enum, kept
    here by the name of its case. *)
Definition IconCategory := string.

Module Entry.
Record t := mk {
  label : string;
  value : string;
  icon : option string;
  scope : option string;
  category : option IconCategory;
  meta : option string;
}.
End Entry.
Abbreviation Entry := Entry.t.

Module LookupScope.
Record t := mk {
  label : string;
  value : string;
  icon : string;
}.
End LookupScope.
Abbreviation LookupScope := LookupScope.t.

(** JavaScript truthiness of a string: every string but the empty one. *)
Definition truthy (s : string) : bool :=
  match s with
  | EmptyString => false
  | String _ _ => true
  end.

(** [a ?? b] on a value that may be undefined. *)
Definition nullish {A : Type} (a : option A) (b : A) : A :=
  match a with
  | Some v => v
  | None => b
  end.

(* ------------------------------------------------------------------ *)
(** * Props of the orchestrator

    A prop that may be left out is an [option]; [selected_] may moreover be
    given as [null], which is [Some None].  A callback prop is opaque code of
    the caller: the model keeps whether it was supplied, and logs each call
    made to it. *)

(** [error] of the form element: a boolean, a string or [{ message }]. *)
Inductive FormError :=
| ErrorFlag (b : bool)
| ErrorString (s : string)
| ErrorObject (message : string).

Record LookupProps := mkProps {
  selected_ : option (option Entry);
  defaultSelected : option (option Entry);
  opened_ : option bool;
  defaultOpened : option bool;
  searchText_ : option string;
  defaultSearchText : option string;
  targetScope_ : option string;
  defaultTargetScope : option string;
  label : option string;
  required : bool;
  error : option FormError;
  disabled : bool;
  hidden : bool;
  loading : bool;
  data : option (list Entry);
  lookupFilter : option (Entry -> string -> string -> bool);
  listHeader : bool;
  listFooter : bool;
  scopes : option (list LookupScope);
  onSelect_ : bool;
  onScopeMenuClick_ : bool;
  onScopeSelect_ : bool;
  onSearchTextChange_ : bool;
  onLookupRequest_ : bool;
  onBlur_ : bool;
  onComplete : bool;
  onKeyDown_ : bool;
}.

(** The cells the component owns: one behind each [useControlledValue] and
    the [useState] of [focusFirstCandidate]. *)
Record LookupState := mkState {
  st_selected : option Entry;
  st_opened : bool;
  st_searchText : string;
  st_targetScope : string;
  st_focusFirstCandidate : bool;
}.

Definition with_selected (v : option Entry) (st : LookupState) : LookupState :=
  mkState v (st_opened st) (st_searchText st) (st_targetScope st)
          (st_focusFirstCandidate st).

Definition with_opened (v : bool) (st : LookupState) : LookupState :=
  mkState (st_selected st) v (st_searchText st) (st_targetScope st)
          (st_focusFirstCandidate st).

Definition with_searchText (v : string) (st : LookupState) : LookupState :=
  mkState (st_selected st) (st_opened st) v (st_targetScope st)
          (st_focusFirstCandidate st).

Definition with_targetScope (v : string) (st : LookupState) : LookupState :=
  mkState (st_selected st) (st_opened st) (st_searchText st) v
          (st_focusFirstCandidate st).

Definition with_focusFirstCandidate (v : bool) (st : LookupState) : LookupState :=
  mkState (st_selected st) (st_opened st) (st_searchText st)
          (st_targetScope st) v.

(** The state at mount: every cell seeded from its default prop. *)
Definition initialState (p : LookupProps) : LookupState :=
  mkState (nullish (defaultSelected p) None)
          (nullish (defaultOpened p) false)
          (nullish (defaultSearchText p) "")
          (nullish (defaultTargetScope p) "")
          false.

(** Modelled from the spec: the hook [useControlledValue] of ./hooks, which
    is not part of the sources at hand.  A stateful prop that is supplied
    (not undefined) is owned by the caller: the component reads it and never
    changes it; otherwise the component manages the value in a cell of its
    own, seeded from the default.  The hook returns the current value and a
    setter; the setter is given here as the function from the new value to
    the new content of the cell. *)
Definition useControlledValue {A : Type} (value : option A) (stateValue : A)
  : A * (A -> A) :=
  match value with
  | Some v => (v, fun _ => stateValue)
  | None => (stateValue, fun next => next)
  end.

(** The current values a render (and the handlers it creates) sees. *)
Definition selected (p : LookupProps) (st : LookupState) : option Entry :=
  fst (useControlledValue (selected_ p) (st_selected st)).

Definition opened (p : LookupProps) (st : LookupState) : bool :=
  fst (useControlledValue (opened_ p) (st_opened st)).

Definition searchText (p : LookupProps) (st : LookupState) : string :=
  fst (useControlledValue (searchText_ p) (st_searchText st)).

Definition targetScope (p : LookupProps) (st : LookupState) : string :=
  fst (useControlledValue (targetScope_ p) (st_targetScope st)).

Definition focusFirstCandidate (st : LookupState) : bool :=
  st_focusFirstCandidate st.

(* ------------------------------------------------------------------ *)
(** * Effects *)

(** A key event, as far as the handlers look at it. *)
Record KeyboardEvent := mkKey {
  keyCode : nat;
  currentTarget_value : string;
}.

(** Calls to the callbacks of the caller. *)
Inductive Callback :=
| CallSearchTextChange (searchText : string)
| CallScopeMenuClick
| CallScopeSelect (targetScope : string)
| CallLookupRequest (searchText : string)
| CallBlur
| CallSelect (entry : option Entry)
| CallComplete (cancel : option bool)
| CallKeyDown (e : KeyboardEvent).

(** The deferred callbacks handed to [setTimeout]. *)
Inductive TimerTask :=
| FocusSearchInput
| FocusPill
| ClearFocusFirstCandidate
| SearchBlurCheck
| BlurCheck.

(** What [focus()] is called on. *)
Inductive FocusTarget :=
| SearchInput
| Pill
| CandidateAnchor (index : nat).

Inductive Effect :=
| Call (c : Callback)
| SetTimeout (task : TimerTask) (ms : nat)
| PreventDefault
| StopPropagation
| Focus (target : FocusTarget).

(** The handler monad: state passing over the cells, with the log of
    effects. *)
Definition M (A : Type) : Type := LookupState -> A * LookupState * list Effect.

Definition ret {A : Type} (a : A) : M A := fun st => (a, st, []).

Definition bind {A B : Type} (m : M A) (k : A -> M B) : M B :=
  fun st =>
    let r1 := m st in
    let r2 := k (fst (fst r1)) (snd (fst r1)) in
    (fst (fst r2), snd (fst r2), snd r1 ++ snd r2).

Notation "m ;; k" := (bind m (fun _ => k))
  (at level 61, right associativity).

Definition modify (f : LookupState -> LookupState) : M unit :=
  fun st => (tt, f st, []).

Definition effect (e : Effect) : M unit := fun st => (tt, st, [e]).

(** [cb?.(args)]: the call is made when the callback was supplied. *)
Definition call (supplied : bool) (c : Callback) : M unit :=
  if supplied then effect (Call c) else ret tt.

Definition setTimeout (task : TimerTask) (ms : nat) : M unit :=
  effect (SetTimeout task ms).

(** State and log a handler leaves behind. *)
Definition exec {A : Type} (m : M A) (st : LookupState) : LookupState :=
  snd (fst (m st)).

Definition log {A : Type} (m : M A) (st : LookupState) : list Effect :=
  snd (m st).

Definition calls (l : list Effect) : list Callback :=
  flat_map (fun e => match e with Call c => [c] | _ => [] end) l.

Definition timeouts (l : list Effect) : list (TimerTask * nat) :=
  flat_map (fun e => match e with SetTimeout t ms => [(t, ms)] | _ => [] end) l.

(** The setters of the four controlled values and of the flag. *)
Definition setSelected (p : LookupProps) (v : option Entry) : M unit :=
  modify (fun st =>
    with_selected (snd (useControlledValue (selected_ p) (st_selected st)) v) st).

Definition setOpened (p : LookupProps) (v : bool) : M unit :=
  modify (fun st =>
    with_opened (snd (useControlledValue (opened_ p) (st_opened st)) v) st).

Definition setSearchText (p : LookupProps) (v : string) : M unit :=
  modify (fun st =>
    with_searchText
      (snd (useControlledValue (searchText_ p) (st_searchText st)) v) st).

Definition setTargetScope (p : LookupProps) (v : string) : M unit :=
  modify (fun st =>
    with_targetScope
      (snd (useControlledValue (targetScope_ p) (st_targetScope st)) v) st).

Definition setFocusFirstCandidate (v : bool) : M unit :=
  modify (with_focusFirstCandidate v).

(* ------------------------------------------------------------------ *)
(** * The handlers of the orchestrator ([Lookup]) *)

Definition onScopeMenuClick (p : LookupProps) : M unit :=
  setOpened p false ;;
  call (onScopeMenuClick_ p) CallScopeMenuClick.

Definition onScopeSelect (p : LookupProps) (targetScope : string) : M unit :=
  setTargetScope p targetScope ;;
  call (onScopeSelect_ p) (CallScopeSelect targetScope).

Definition onSearchTextChange (p : LookupProps) (searchText : string) : M unit :=
  setSearchText p searchText ;;
  call (onSearchTextChange_ p) (CallSearchTextChange searchText).

Definition onLookupRequest (p : LookupProps) (searchText : string) : M unit :=
  setOpened p true ;;
  call (onLookupRequest_ p) (CallLookupRequest searchText).

Definition onResetSelection (p : LookupProps) : M unit :=
  setSelected p None ;;
  call (onSelect_ p) (CallSelect None) ;;
  onSearchTextChange p "" ;;
  onLookupRequest p "" ;;
  setTimeout FocusSearchInput 10.

Definition onLookupItemSelect (p : LookupProps) (selected : option Entry)
  : M unit :=
  match selected with
  | Some entry =>
      setSelected p (Some entry) ;;
      setOpened p false ;;
      call (onSelect_ p) (CallSelect (Some entry)) ;;
      setTimeout FocusPill 10
  | None =>
      setOpened p false ;;
      setTimeout FocusSearchInput 10
  end ;;
  call (onComplete p) (CallComplete None).

(** The closure captures [opened] and [searchText] of the render that
    created it. *)
Definition onFocusFirstCandidate (p : LookupProps)
    (opened : bool) (searchText : string) : M unit :=
  if negb opened then
    onLookupRequest p searchText
  else
    setFocusFirstCandidate true ;;
    setTimeout ClearFocusFirstCandidate 10.

(** [isElInChildren] of ./util and [getActiveElement] of the component
    settings are not part of the sources at hand: the answers of the
    containment tests and the presence of the elements looked up by the
    deferred callbacks are read from a snapshot of the document. *)
Record Dom := mkDom {
  activeInEl : bool;
  activeInCandidateList : bool;
  activeInSearch : bool;
  inputEl : bool;
  pillElem : bool;
}.

Definition isFocusedInComponent (dom : Dom) : bool :=
  activeInEl dom || activeInCandidateList dom.

Definition onBlur : M unit :=
  setTimeout BlurCheck 500.

(** What a deferred callback does when its timer fires. *)
Definition runTimer (p : LookupProps) (dom : Dom) (task : TimerTask) : M unit :=
  match task with
  | FocusSearchInput =>
      if inputEl dom then effect (Focus SearchInput) else ret tt
  | FocusPill =>
      if pillElem dom then effect (Focus Pill) else ret tt
  | ClearFocusFirstCandidate =>
      setFocusFirstCandidate false
  | SearchBlurCheck =>
      if negb (activeInSearch dom) then onBlur else ret tt
  | BlurCheck =>
      if negb (isFocusedInComponent dom) then
        setOpened p false ;;
        call (onBlur_ p) CallBlur ;;
        call (onComplete p) (CallComplete (Some true))
      else ret tt
  end.

(* ------------------------------------------------------------------ *)
(** * The search bar ([LookupSearch]) *)

Record LookupSearchProps := mkSearchProps {
  ls_hidden : bool;
  ls_searchText : option string;
  ls_scopes : option (list LookupScope);
  ls_targetScope : option string;
  ls_disabled : bool;
  ls_onBlur : option (M unit);
  ls_onSearchTextChange : option (string -> M unit);
  ls_onScopeMenuClick : option (M unit);
  ls_onScopeSelect : option (string -> M unit);
  ls_onKeyDown : option (KeyboardEvent -> M unit);
  ls_onPressDown : option (M unit);
  ls_onSubmit : option (M unit);
  ls_onComplete : option (option bool -> M unit);
}.

(** [f?.()] and [f?.(x)] on a handler prop. *)
Definition opt0 (f : option (M unit)) : M unit :=
  match f with
  | Some h => h
  | None => ret tt
  end.

Definition opt1 {A : Type} (f : option (A -> M unit)) (x : A) : M unit :=
  match f with
  | Some h => h x
  | None => ret tt
  end.

Definition onLookupIconClick (props : LookupSearchProps) : M unit :=
  effect (Focus SearchInput) ;;
  opt0 (ls_onSubmit props).

Definition onInputKeyDown (props : LookupSearchProps) (e : KeyboardEvent)
  : M unit :=
  (if (keyCode e =? 13)%nat then
     effect PreventDefault ;;
     effect StopPropagation ;;
     let searchText := currentTarget_value e in
     if truthy searchText then
       opt0 (ls_onSubmit props)
     else
       opt1 (ls_onComplete props) None
   else if (keyCode e =? 40)%nat then
     effect PreventDefault ;;
     effect StopPropagation ;;
     opt0 (ls_onPressDown props)
   else if (keyCode e =? 27)%nat then
     effect PreventDefault ;;
     effect StopPropagation ;;
     let cancel := true in
     opt1 (ls_onComplete props) (Some cancel)
   else ret tt) ;;
  opt1 (ls_onKeyDown props) e.

Definition onInputChange (props : LookupSearchProps) (searchText : string)
  : M unit :=
  opt1 (ls_onSearchTextChange props) searchText.

Definition onInputBlur : M unit :=
  setTimeout SearchBlurCheck 10.

(** The scope whose icon the selector shows: [None] stands for the empty
    object [{}] taken when [scopes[0]] is undefined. *)
Fixpoint scopeLoop (scopes : list LookupScope) (targetScope : option string)
    (target : option LookupScope) : option LookupScope :=
  match scopes with
  | [] => target
  | scope :: rest =>
      match targetScope with
      | Some ts =>
          if String.eqb (LookupScope.value scope) ts then Some scope
          else scopeLoop rest targetScope target
      | None => scopeLoop rest targetScope target
      end
  end.

Definition scopeTarget (scopes : list LookupScope) (targetScope : option string)
  : option LookupScope :=
  let target := nth_error scopes 0 in
  scopeLoop scopes targetScope target.

(** [scope.value === targetScope] *)
Definition scopeMatches (targetScope : option string) (scope : LookupScope)
  : Prop :=
  targetScope = Some (LookupScope.value scope).

(** [target.icon || 'none'] *)
Definition scopeIcon (target : option LookupScope) : string :=
  match target with
  | Some scope =>
      if truthy (LookupScope.icon scope) then LookupScope.icon scope else "none"
  | None => "none"
  end.

(* ------------------------------------------------------------------ *)
(** * The candidate list ([LookupCandidateListInner]) *)

Record LookupCandidateListProps := mkListProps {
  cl_data : option (list Entry);
  cl_focus : bool;
  cl_loading : bool;
  cl_filter : option (Entry -> bool);
  cl_onSelect : option (option Entry -> M unit);
  cl_onBlur : option (M unit);
  cl_header : bool;
  cl_footer : bool;
}.

Definition trueFilter (_ : Entry) : bool := true.

(** The [<li>] children of the list: a candidate row holds an anchor
    [.react-slds-candidate[tabIndex]], of which the key handler reads
    [ariaDisabled] (null or a string); the loading row holds none. *)
Inductive ListItem :=
| CandidateItem (ariaDisabled : option string)
| LoadingItem.

(** The rows as rendered: one candidate row per entry the filter accepts,
    then the loading row when [loading] is set. *)
Definition renderItems (props : LookupCandidateListProps) : list ListItem :=
  map (fun _ : Entry => CandidateItem None)
      (filter (nullish (cl_filter props) trueFilter) (nullish (cl_data props) []))
  ++ (if cl_loading props then [LoadingItem] else []).

(** [itemEl.querySelector('.react-slds-candidate[tabIndex]')], followed by
    the test [anchorEl && !anchorEl.ariaDisabled]. *)
Definition querySelector (itemEl : ListItem) : option (option string) :=
  match itemEl with
  | CandidateItem ariaDisabled => Some ariaDisabled
  | LoadingItem => None
  end.

Definition focusable (itemEl : ListItem) : bool :=
  match querySelector itemEl with
  | Some (Some ariaDisabled) => negb (truthy ariaDisabled)
  | Some None => true
  | None => false
  end.

(** The [while (itemEl)] loop along a chain of siblings, nearest first: the
    number of siblings stepped over before the one that takes the focus. *)
Fixpoint scan (chain : list ListItem) : option nat :=
  match chain with
  | [] => None
  | itemEl :: rest =>
      if focusable itemEl then Some 0 else option_map S (scan rest)
  end.

(** The siblings after and before the row at [index]. *)
Definition nextSiblings (items : list ListItem) (index : nat) : list ListItem :=
  skipn (S index) items.

Definition previousSiblings (items : list ListItem) (index : nat)
  : list ListItem :=
  rev (firstn index items).

Module CandidateList.

Definition onSelect (props : LookupCandidateListProps) (entry : option Entry)
  : M unit :=
  opt1 (cl_onSelect props) entry.

(** The key handler of the list box; [target] is the index of the row whose
    anchor the event comes from. *)
Definition onKeyDown (props : LookupCandidateListProps)
    (items : list ListItem) (target : nat) (e : KeyboardEvent) : M unit :=
  if (keyCode e =? 38)%nat || (keyCode e =? 40)%nat then
    effect PreventDefault ;;
    effect StopPropagation ;;
    let found :=
      if (keyCode e =? 40)%nat
      then option_map (fun k => S target + k) (scan (nextSiblings items target))
      else option_map (fun k => target - 1 - k)
                      (scan (previousSiblings items target)) in
    match found with
    | Some index => effect (Focus (CandidateAnchor index))
    | None => ret tt
    end
  else if (keyCode e =? 27)%nat then
    effect PreventDefault ;;
    effect StopPropagation ;;
    onSelect props None
  else ret tt.

(** The key handler and the click handler of one row. *)
Definition onRowKeyDown (props : LookupCandidateListProps) (entry : Entry)
    (e : KeyboardEvent) : M unit :=
  if (keyCode e =? 13)%nat then onSelect props (Some entry) else ret tt.

Definition onRowClick (props : LookupCandidateListProps) (entry : Entry)
  : M unit :=
  onSelect props (Some entry).

End CandidateList.

(** The row that holds the focus once the [focus()] calls of a log are done. *)
Definition focusedRow (l : list Effect) (current : nat) : nat :=
  fold_left
    (fun row e =>
       match e with
       | Focus (CandidateAnchor index) => index
       | _ => row
       end)
    l current.

Definition enabled (items : list ListItem) (index : nat) : bool :=
  match nth_error items index with
  | Some itemEl => focusable itemEl
  | None => false
  end.

(* ------------------------------------------------------------------ *)
(** * Rendering *)

Unset Elimination Schemes.
Inductive VNode :=
| Host (tag : string) (children : list VNode)
| Text (s : string)
| ELookupSelection (selected : Entry)
| ELookupSearch (props : LookupSearchProps)
| ELookupCandidateList (props : LookupCandidateListProps).
Set Elimination Schemes.

(** [FormElement]: the label when there is one, then the control, which holds
    the children followed by the error message when there is one. *)
Definition errorMessage (error : option FormError) : option string :=
  match error with
  | Some (ErrorString s) => if truthy s then Some s else None
  | Some (ErrorObject message) => Some message
  | Some (ErrorFlag _) => None
  | None => None
  end.

Definition FormElement (label : option string) (required : bool)
    (error : option FormError) (children : list VNode) : VNode :=
  Host "div"
    ((if truthy (nullish label "")
      then [Host "label"
              (Text (nullish label "")
               :: (if required then [Host "abbr" [Text "*"]] else []))]
      else [])
     ++ [Host "div"
           (children
            ++ (if truthy (nullish (errorMessage error) "")
                then [Host "span" [Text (nullish (errorMessage error) "")]]
                else []))]).

(** The props [Lookup] hands to its search bar.  [scopes] is taken out of the
    props of [Lookup] and is not among them. *)
Definition searchProps (p : LookupProps) (st : LookupState) : LookupSearchProps :=
  {| ls_hidden := hidden p;
     ls_searchText := Some (searchText p st);
     ls_scopes := None;
     ls_targetScope := Some (targetScope p st);
     ls_disabled := disabled p;
     ls_onBlur := Some onBlur;
     ls_onSearchTextChange := Some (onSearchTextChange p);
     ls_onScopeMenuClick := Some (onScopeMenuClick p);
     ls_onScopeSelect := Some (onScopeSelect p);
     ls_onKeyDown :=
       if onKeyDown_ p then Some (fun e => effect (Call (CallKeyDown e)))
       else None;
     ls_onPressDown :=
       Some (onFocusFirstCandidate p (opened p st) (searchText p st));
     ls_onSubmit :=
       Some (onLookupRequest p
               (if truthy (searchText p st) then searchText p st else ""));
     ls_onComplete :=
       if onComplete p then Some (fun cancel => effect (Call (CallComplete cancel)))
       else None |}.

Definition candidateListProps (p : LookupProps) (st : LookupState)
  : LookupCandidateListProps :=
  {| cl_data := data p;
     cl_focus := focusFirstCandidate st;
     cl_loading := loading p;
     cl_filter :=
       match lookupFilter p with
       | Some f => Some (fun entry => f entry (searchText p st) (targetScope p st))
       | None => None
       end;
     cl_onSelect := Some (onLookupItemSelect p);
     cl_onBlur := Some onBlur;
     cl_header := listHeader p;
     cl_footer := listFooter p |}.

Definition Lookup (p : LookupProps) (st : LookupState) : VNode :=
  FormElement (label p) (required p) (error p)
    [Host "div"
       ((match selected p st with
         | Some entry => [ELookupSelection entry]
         | None => [ELookupSearch (searchProps p st)]
         end)
        ++ (if opened p st
            then [ELookupCandidateList (candidateListProps p st)]
            else []))].

(** Whether a tree holds a node the test accepts. *)
Fixpoint contains (f : VNode -> bool) (n : VNode) : bool :=
  f n ||
  match n with
  | Host _ children => existsb (contains f) children
  | _ => false
  end.

Definition isLookupSelection (n : VNode) : bool :=
  match n with ELookupSelection _ => true | _ => false end.

Definition isLookupSearch (n : VNode) : bool :=
  match n with ELookupSearch _ => true | _ => false end.

Definition isLookupCandidateList (n : VNode) : bool :=
  match n with ELookupCandidateList _ => true | _ => false end.

(* ------------------------------------------------------------------ *)
(** * Events on the rendered widget

    An event runs the handler the current render has put in place. *)

(** A key pressed in the text field of the search bar. *)
Definition searchKeyDown (p : LookupProps) (e : KeyboardEvent) : M unit :=
  fun st => onInputKeyDown (searchProps p st) e st.

(** The semantic events of the search bar and of the candidate list, as the
    orchestrator receives them. *)
Definition submit (p : LookupProps) : M unit :=
  fun st => opt0 (ls_onSubmit (searchProps p st)) st.

Definition pressDown (p : LookupProps) : M unit :=
  fun st => opt0 (ls_onPressDown (searchProps p st)) st.

Definition select (p : LookupProps) (entry : option Entry) : M unit :=
  fun st => CandidateList.onSelect (candidateListProps p st) entry st.

Definition resetSelection (p : LookupProps) : M unit :=
  onResetSelection p.

(** A key pressed on row [target] of the open candidate list. *)
Definition listKeyDown (p : LookupProps) (items : list ListItem) (target : nat)
    (e : KeyboardEvent) : M unit :=
  fun st => CandidateList.onKeyDown (candidateListProps p st) items target e st.

(** The timers a log has scheduled, fired in order. *)
Fixpoint runTimers (p : LookupProps) (dom : Dom) (tasks : list (TimerTask * nat))
  : M unit :=
  match tasks with
  | [] => ret tt
  | (task, _) :: rest => runTimer p dom task ;; runTimers p dom rest
  end.


(* ------------------------------------------------------------------ *)
(** * The rest of the components *)

(** ** The selection display ([LookupSelection]) *)

Record LookupSelectionProps := mkSelectionProps {
  sel_selected : option Entry;
  sel_hidden : bool;
  sel_onResetSelection : option (M unit);
}.

Module Selection.

Definition onKeyDown (props : LookupSelectionProps) (e : KeyboardEvent)
  : M unit :=
  if (keyCode e =? 8)%nat || (keyCode e =? 46)%nat then
    effect PreventDefault ;;
    effect StopPropagation ;;
    opt0 (sel_onResetSelection props)
  else ret tt.

Definition onPillClick : M unit :=
  effect (Focus Pill) ;;
  effect PreventDefault ;;
  effect StopPropagation.

End Selection.

(** The props [Lookup] hands to its selection display. *)
Definition selectionProps (p : LookupProps) (entry : Entry)
  : LookupSelectionProps :=
  {| sel_selected := Some entry;
     sel_hidden := false;
     sel_onResetSelection := Some (onResetSelection p) |}.

(** A key pressed on the pill; there is a pill only while an entry is
    selected. *)
Definition pillKeyDown (p : LookupProps) (e : KeyboardEvent) : M unit :=
  fun st =>
    match selected p st with
    | Some entry => Selection.onKeyDown (selectionProps p entry) e st
    | None => ret tt st
    end.

(** ** The search bar, continued *)

(** The search icon button: [onClick={disabled ? undefined : onLookupIconClick}]. *)
Definition searchIconClick (props : LookupSearchProps) : M unit :=
  if ls_disabled props then ret tt else onLookupIconClick props.

(** [onMenuSelect] of the scope selector. *)
Definition onMenuSelect (props : LookupSearchProps) (v : string) : M unit :=
  opt1 (ls_onScopeSelect props) v.

(** What [LookupSearch] renders: the text input with the search button, and
    before them, when [scopes] is given, the scope selector.  The [label] prop
    of the dropdown button (the icon of the active scope) is written as its
    first child, the menu items follow. *)
Definition searchInput : VNode :=
  Host "div" [Host "Input" []; Host "Button" []].

Definition LookupSearch (props : LookupSearchProps) : VNode :=
  match ls_scopes props with
  | Some scopes =>
      let target := scopeTarget scopes (ls_targetScope props) in
      let icon := Host "Icon" [Text (scopeIcon target)] in
      Host "div"
        [Host "div"
           [Host "DropdownButton"
              (icon :: map (fun scope : LookupScope =>
                              Host "DropdownMenuItem"
                                   [Text (LookupScope.label scope)])
                           scopes)];
         searchInput]
  | None => searchInput
  end.

Definition isTag (name : string) (n : VNode) : bool :=
  match n with
  | Host tag _ => String.eqb tag name
  | _ => false
  end.

(** Whether some search bar of a tree renders a scope selector. *)
Definition rendersScopeSelector (n : VNode) : bool :=
  contains (fun n' =>
              match n' with
              | ELookupSearch props =>
                  contains (isTag "DropdownButton") (LookupSearch props)
              | _ => false
              end) n.

(** Events of the search bar on the rendered widget. *)
Definition searchChange (p : LookupProps) (text : string) : M unit :=
  fun st => onInputChange (searchProps p st) text st.

Fixpoint typing (p : LookupProps) (texts : list string) : M unit :=
  match texts with
  | [] => ret tt
  | text :: rest => searchChange p text ;; typing p rest
  end.

Definition searchIconClicked (p : LookupProps) : M unit :=
  fun st => searchIconClick (searchProps p st) st.

(** A handler followed by the timers it has scheduled, fired against a
    snapshot of the document: the log keeps what the handler did besides
    scheduling them, then what the timers do. *)
Definition isSetTimeout (e : Effect) : bool :=
  match e with
  | SetTimeout _ _ => true
  | _ => false
  end.

Definition thenTimers (p : LookupProps) (dom : Dom) (m : M unit) : M unit :=
  fun st =>
    let r := m st in
    let r' := runTimers p dom (timeouts (snd r)) (snd (fst r)) in
    (tt, snd (fst r'),
     filter (fun e => negb (isSetTimeout e)) (snd r) ++ snd r').

(** ** The candidate list, continued *)

(** [el.querySelectorAll('.react-slds-candidate[tabIndex]')]: the anchors of
    the candidate rows in document order, each given by the index of its
    row. *)
Fixpoint anchorsFrom (items : list ListItem) (row : nat) : list nat :=
  match items with
  | [] => []
  | CandidateItem _ :: rest => row :: anchorsFrom rest (S row)
  | LoadingItem :: rest => anchorsFrom rest (S row)
  end.

Definition anchors (items : list ListItem) : list nat := anchorsFrom items 0.

(** [focusToTargetItemEl]: nothing when the list element is gone
    ([elRef.current] is null) or there is no anchor at [index]. *)
Definition focusToTargetItemEl (el : option (list ListItem)) (index : nat)
  : M unit :=
  match el with
  | None => ret tt
  | Some items =>
      match nth_error (anchors items) index with
      | Some row => effect (Focus (CandidateAnchor row))
      | None => ret tt
      end
  end.

(** The effect on [focus], with its dependency array
    [focus, focusToTargetItemEl].  The second dependency is the same function
    in every render, so the effect runs after the first render of the list
    and after every render whose [focus] differs from that of the render
    before ([previous], none at mount), and after no other render.  Its body
    runs 10ms later, against the list element as it is then. *)
Definition focusEffect (previous : option bool)
    (props : LookupCandidateListProps) (el : option (list ListItem))
  : M unit :=
  let changed :=
    match previous with
    | None => true
    | Some focus => negb (Bool.eqb focus (cl_focus props))
    end in
  if changed then
    if cl_focus props then focusToTargetItemEl el 0 else ret tt
  else ret tt.

(** The entries the list shows. *)
Definition shownEntries (props : LookupCandidateListProps) : list Entry :=
  filter (nullish (cl_filter props) trueFilter) (nullish (cl_data props) []).

Definition isCandidateItem (itemEl : ListItem) : bool :=
  match itemEl with
  | CandidateItem _ => true
  | LoadingItem => false
  end.

(** A key pressed on the anchor of a row: the handler of the row runs, then,
    the event bubbling, the handler of the list box. *)
Definition rowKeyDown (p : LookupProps) (items : list ListItem)
    (entry : Entry) (target : nat) (e : KeyboardEvent) : M unit :=
  fun st =>
    (CandidateList.onRowKeyDown (candidateListProps p st) entry e ;;
     CandidateList.onKeyDown (candidateListProps p st) items target e) st.

(** ** The events the orchestrator handles *)

Inductive LookupEvent :=
| SearchTextChange (text : string)
| Submit
| PressDown
| Select (entry : option Entry)
| ResetSelection
| ScopeSelect (value : string)
| ScopeMenuClick
| Blur
| Timer (dom : Dom) (task : TimerTask).

Definition step (p : LookupProps) (ev : LookupEvent) : M unit :=
  match ev with
  | SearchTextChange text => searchChange p text
  | Submit => submit p
  | PressDown => pressDown p
  | Select entry => select p entry
  | ResetSelection => resetSelection p
  | ScopeSelect value => onScopeSelect p value
  | ScopeMenuClick => onScopeMenuClick p
  | Blur => onBlur
  | Timer dom task => runTimer p dom task
  end.

Fixpoint steps (p : LookupProps) (evs : list LookupEvent) : M unit :=
  match evs with
  | [] => ret tt
  | ev :: rest => step p ev ;; steps p rest
  end.

(** ** The text input ([Input]) *)

(** Calls to the callback props of [Input]. *)
Inductive InputCall :=
| InputPreventDefault
| InputKeyDown (e : KeyboardEvent)
| InputChange (value : string)
| InputValueChange (value : string) (prevValue : option string).

Record InputProps := mkInputProps {
  in_symbolPattern : option string;
  in_onKeyDown_ : bool;
  in_onChange_ : bool;
  in_onValueChange : bool;
}.

Section InputHandlers.

(** [keycoder.toCharacter(keyCode, shiftKey)] and
    [value.match(new RegExp(symbolPattern))] come from outside the
    repository: the character of a key, if it has one, and whether the
    pattern matches it. *)
Variable toCharacter : nat -> bool -> option string.
Variable regExpMatch : string -> string -> bool.

Definition Input_onKeyDown (props : InputProps) (shiftKey : bool)
    (e : KeyboardEvent) : list InputCall :=
  let forward := if in_onKeyDown_ props then [InputKeyDown e] else [] in
  match in_symbolPattern props with
  | Some symbolPattern =>
      if truthy symbolPattern then
        match toCharacter (keyCode e) shiftKey with
        | Some value =>
            if truthy value && negb (regExpMatch symbolPattern value)
            then [InputPreventDefault]
            else forward
        | None => forward
        end
      else forward
  | None => forward
  end.

End InputHandlers.

(** [onChange]: the calls made, and the new content of [prevValueRef]. *)
Definition Input_onChange (props : InputProps) (prevValueRef : option string)
    (value : string) : list InputCall * option string :=
  ((if in_onChange_ props then [InputChange value] else [])
   ++ (if in_onValueChange props
       then [InputValueChange value prevValueRef] else []),
   Some value).

(** A run of change events, from a given content of the ref. *)
Fixpoint Input_changes (props : InputProps) (prevValueRef : option string)
    (values : list string) : list InputCall * option string :=
  match values with
  | [] => ([], prevValueRef)
  | value :: rest =>
      let r := Input_onChange props prevValueRef value in
      let r' := Input_changes props (snd r) rest in
      (fst r ++ fst r', snd r')
  end.

Definition valueChanges (l : list InputCall) : list (string * option string) :=
  flat_map (fun c => match c with
                     | InputValueChange v prev => [(v, prev)]
                     | _ => []
                     end) l.

(** ** Reading more of a log *)

Definition selects (l : list Effect) : list (option Entry) :=
  flat_map (fun e => match e with
                     | Call (CallSelect entry) => [entry]
                     | _ => []
                     end) l.

Definition searchTextChanges (l : list Effect) : list string :=
  flat_map (fun e => match e with
                     | Call (CallSearchTextChange s) => [s]
                     | _ => []
                     end) l.

Definition focuses (l : list Effect) : list FocusTarget :=
  flat_map (fun e => match e with Focus t => [t] | _ => [] end) l.

Definition backspaceKey : KeyboardEvent := mkKey 8 "".
Definition deleteKey : KeyboardEvent := mkKey 46 "".

(** A caller that listens to every callback. *)
Definition listening (p : LookupProps) : Prop :=
  onSelect_ p = true /\ onScopeMenuClick_ p = true /\ onScopeSelect_ p = true
  /\ onSearchTextChange_ p = true /\ onLookupRequest_ p = true
  /\ onBlur_ p = true /\ onComplete p = true.

(** A widget that owns all four values. *)
Definition uncontrolled (p : LookupProps) : Prop :=
  selected_ p = None /\ opened_ p = None
  /\ searchText_ p = None /\ targetScope_ p = None.

(* ------------------------------------------------------------------ *)
(** * Reading a log *)

Definition lookupRequests (l : list Effect) : list string :=
  flat_map (fun e => match e with
                     | Call (CallLookupRequest s) => [s]
                     | _ => []
                     end) l.

Definition completes (l : list Effect) : list (option bool) :=
  flat_map (fun e => match e with
                     | Call (CallComplete cancel) => [cancel]
                     | _ => []
                     end) l.


(* ------------------------------------------------------------------ *)
(** * Sample inputs *)

(** A [Lookup] given no props at all, and one given every callback. *)
Definition noProps : LookupProps :=
  {| selected_ := None; defaultSelected := None;
     opened_ := None; defaultOpened := None;
     searchText_ := None; defaultSearchText := None;
     targetScope_ := None; defaultTargetScope := None;
     label := None; required := false; error := None;
     disabled := false; hidden := false; loading := false;
     data := None; lookupFilter := None;
     listHeader := false; listFooter := false; scopes := None;
     onSelect_ := false; onScopeMenuClick_ := false; onScopeSelect_ := false;
     onSearchTextChange_ := false; onLookupRequest_ := false;
     onBlur_ := false; onComplete := false; onKeyDown_ := false |}.

Definition withCallbacks (p : LookupProps) : LookupProps :=
  {| selected_ := selected_ p; defaultSelected := defaultSelected p;
     opened_ := opened_ p; defaultOpened := defaultOpened p;
     searchText_ := searchText_ p; defaultSearchText := defaultSearchText p;
     targetScope_ := targetScope_ p; defaultTargetScope := defaultTargetScope p;
     label := label p; required := required p; error := error p;
     disabled := disabled p; hidden := hidden p; loading := loading p;
     data := data p; lookupFilter := lookupFilter p;
     listHeader := listHeader p; listFooter := listFooter p; scopes := scopes p;
     onSelect_ := true; onScopeMenuClick_ := true; onScopeSelect_ := true;
     onSearchTextChange_ := true; onLookupRequest_ := true;
     onBlur_ := true; onComplete := true; onKeyDown_ := true |}.

(** The caller owns [opened], [selected] or [searchText]. *)
Definition controlOpened (v : bool) (p : LookupProps) : LookupProps :=
  {| selected_ := selected_ p; defaultSelected := defaultSelected p;
     opened_ := Some v; defaultOpened := defaultOpened p;
     searchText_ := searchText_ p; defaultSearchText := defaultSearchText p;
     targetScope_ := targetScope_ p; defaultTargetScope := defaultTargetScope p;
     label := label p; required := required p; error := error p;
     disabled := disabled p; hidden := hidden p; loading := loading p;
     data := data p; lookupFilter := lookupFilter p;
     listHeader := listHeader p; listFooter := listFooter p; scopes := scopes p;
     onSelect_ := onSelect_ p; onScopeMenuClick_ := onScopeMenuClick_ p;
     onScopeSelect_ := onScopeSelect_ p;
     onSearchTextChange_ := onSearchTextChange_ p;
     onLookupRequest_ := onLookupRequest_ p;
     onBlur_ := onBlur_ p; onComplete := onComplete p;
     onKeyDown_ := onKeyDown_ p |}.

Definition controlSelected (v : option Entry) (p : LookupProps) : LookupProps :=
  {| selected_ := Some v; defaultSelected := defaultSelected p;
     opened_ := opened_ p; defaultOpened := defaultOpened p;
     searchText_ := searchText_ p; defaultSearchText := defaultSearchText p;
     targetScope_ := targetScope_ p; defaultTargetScope := defaultTargetScope p;
     label := label p; required := required p; error := error p;
     disabled := disabled p; hidden := hidden p; loading := loading p;
     data := data p; lookupFilter := lookupFilter p;
     listHeader := listHeader p; listFooter := listFooter p; scopes := scopes p;
     onSelect_ := onSelect_ p; onScopeMenuClick_ := onScopeMenuClick_ p;
     onScopeSelect_ := onScopeSelect_ p;
     onSearchTextChange_ := onSearchTextChange_ p;
     onLookupRequest_ := onLookupRequest_ p;
     onBlur_ := onBlur_ p; onComplete := onComplete p;
     onKeyDown_ := onKeyDown_ p |}.

Definition entryX : Entry := Entry.mk "X" "x" None None None None.
Definition entryY : Entry := Entry.mk "Y" "y" None None None None.

Definition enterKey (text : string) : KeyboardEvent := mkKey 13 text.
Definition escapeKey (text : string) : KeyboardEvent := mkKey 27 text.
Definition downKey : KeyboardEvent := mkKey 40 "".
Definition upKey : KeyboardEvent := mkKey 38 "".

(* ------------------------------------------------------------------ *)
(** * Proof steps *)

(** Unfold a handler down to the state and the log it yields. *)
Ltac unfold_handlers :=
  cbv [select submit pressDown resetSelection searchKeyDown listKeyDown
       CandidateList.onSelect CandidateList.onKeyDown
       candidateListProps searchProps
       cl_onSelect ls_onSubmit ls_onPressDown ls_onComplete ls_onKeyDown
       onInputKeyDown onLookupItemSelect onResetSelection onFocusFirstCandidate
       onLookupRequest onSearchTextChange onScopeSelect onScopeMenuClick onBlur
       runTimer runTimers
       setSelected setOpened setSearchText setTargetScope setFocusFirstCandidate
       setTimeout call effect modify bind ret opt0 opt1 exec log
       selected opened searchText targetScope focusFirstCandidate
       with_selected with_opened with_searchText with_targetScope
       with_focusFirstCandidate] in *.

Ltac break_props p :=
  destruct p; cbn [selected_ opened_ searchText_ targetScope_ onSelect_
    onScopeMenuClick_ onScopeSelect_ onSearchTextChange_ onLookupRequest_
    onBlur_ onComplete onKeyDown_ disabled hidden data loading lookupFilter
    listHeader listFooter] in *.

Ltac break_ifs :=
  repeat match goal with
    | |- context [match ?b with _ => _ end] => is_var b; destruct b
    end.

(* ------------------------------------------------------------------ *)
(** * Properties *)

(** ** Rendering *)

Lemma contains_FormElement (f : VNode -> bool) label required error children :
  (forall tag ch, f (Host tag ch) = false) ->
  (forall s, f (Text s) = false) ->
  contains f (FormElement label required error children)
  = existsb (contains f) children.
Proof.
  intros Hhost Htext. unfold FormElement.
  destruct (truthy (nullish label "")), required,
    (truthy (nullish (errorMessage error) ""));
    cbn [contains existsb app]; rewrite ?Hhost, ?Htext; cbn [orb];
    rewrite ?existsb_app; cbn [existsb contains]; rewrite ?Hhost, ?Htext;
    cbn [orb]; rewrite ?orb_false_r; reflexivity.
Qed.

Lemma contains_Lookup (f : VNode -> bool) p st :
  (forall tag ch, f (Host tag ch) = false) ->
  (forall s, f (Text s) = false) ->
  contains f (Lookup p st)
  = (match selected p st with
     | Some entry => f (ELookupSelection entry)
     | None => f (ELookupSearch (searchProps p st))
     end
     || (opened p st && f (ELookupCandidateList (candidateListProps p st)))).
Proof.
  intros Hhost Htext. unfold Lookup.
  rewrite contains_FormElement by assumption.
  cbn [existsb contains]. rewrite Hhost, existsb_app.
  destruct (selected p st), (opened p st); cbn [existsb contains app orb andb];
    rewrite ?orb_false_r; reflexivity.
Qed.

(** C1: in every state of the orchestrator, the rendered tree holds the
    selection display exactly when [selected] is not null, the search bar
    exactly when [selected] is null (so never both), and the candidate list
    exactly when [opened] is true, whatever [selected] is. *)
Theorem C1_render_invariant (p : LookupProps) (st : LookupState) :
  (contains isLookupSelection (Lookup p st) = true <-> selected p st <> None)
  /\ (contains isLookupSearch (Lookup p st) = true <-> selected p st = None)
  /\ (contains isLookupSelection (Lookup p st)
      && contains isLookupSearch (Lookup p st) = false)
  /\ (contains isLookupCandidateList (Lookup p st) = true
      <-> opened p st = true).
Proof.
  rewrite !contains_Lookup by reflexivity.
  destruct (selected p st) as [entry|], (opened p st); cbn;
    repeat split; intros; congruence.
Qed.

(** ** Sample runs *)

Example select_sample :
  exec (select noProps (Some entryX)) (initialState noProps)
  = mkState (Some entryX) false "" "" false.
Proof. reflexivity. Qed.

Example select_sample_log :
  log (select (withCallbacks noProps) (Some entryX)) (initialState noProps)
  = [Call (CallSelect (Some entryX)); SetTimeout FocusPill 10;
     Call (CallComplete None)].
Proof. reflexivity. Qed.

(** ** Selecting a candidate *)

(** What [select] leaves in the cells, whatever the props. *)
Lemma exec_select_entry p st entry :
  exec (select p (Some entry)) st
  = mkState (snd (useControlledValue (selected_ p) (st_selected st)) (Some entry))
            (snd (useControlledValue (opened_ p) (st_opened st)) false)
            (st_searchText st) (st_targetScope st) (st_focusFirstCandidate st).
Proof.
  unfold_handlers. break_props p. break_ifs; reflexivity.
Qed.

Lemma exec_select_null p st :
  exec (select p None) st
  = with_opened (snd (useControlledValue (opened_ p) (st_opened st)) false) st.
Proof.
  unfold_handlers. break_props p. break_ifs; reflexivity.
Qed.

(** C2 (amended): for every non-null entry [e], [select(e)] sets [selected]
    to exactly [e] when [selected] is not a controlled prop and sets [opened]
    to false when [opened] is not a controlled prop; a controlled value keeps
    the value of its prop.  From any state and with any props the transition
    is idempotent: applied twice it yields the same final state as applied
    once. *)
Theorem C2_select_entry (p : LookupProps) (st : LookupState) (e : Entry) :
  let st1 := exec (select p (Some e)) st in
  (selected_ p = None -> selected p st1 = Some e)
  /\ (opened_ p = None -> opened p st1 = false)
  /\ (forall v, selected_ p = Some v -> selected p st1 = v)
  /\ (forall v, opened_ p = Some v -> opened p st1 = v)
  /\ exec (select p (Some e)) st1 = st1.
Proof.
  cbv zeta. rewrite !exec_select_entry. unfold selected, opened.
  destruct (selected_ p), (opened_ p); cbn;
    repeat split; intros; congruence.
Qed.

(** The transition on a widget that owns both values. *)
Lemma C2_select_entry_witness :
  selected noProps (exec (select noProps (Some entryX)) (initialState noProps))
  = Some entryX
  /\ opened noProps (exec (select noProps (Some entryX)) (initialState noProps))
     = false.
Proof.
  destruct (C2_select_entry noProps (initialState noProps) entryX)
    as (Hsel & Hop & _).
  split; [apply Hsel | apply Hop]; reflexivity.
Defined.

(** C2 as first stated fails when the caller owns [opened]: with the prop
    [opened] held at true, the list is still open after [select(e)]. *)
Lemma C2_counterexample :
  let p := controlOpened true noProps in
  let st := initialState p in
  ~ (selected p (exec (select p (Some entryX)) st) = Some entryX
     /\ opened p (exec (select p (Some entryX)) st) = false).
Proof.
  cbv zeta. intros [_ H]. vm_compute in H. discriminate H.
Qed.

(** ** Resetting the selection *)

Lemma exec_resetSelection p st :
  exec (resetSelection p) st
  = mkState (snd (useControlledValue (selected_ p) (st_selected st)) None)
            (snd (useControlledValue (opened_ p) (st_opened st)) true)
            (snd (useControlledValue (searchText_ p) (st_searchText st)) "")
            (st_targetScope st) (st_focusFirstCandidate st).
Proof.
  unfold resetSelection, onResetSelection, onSearchTextChange,
    onLookupRequest, call.
  destruct (onSelect_ p), (onSearchTextChange_ p), (onLookupRequest_ p);
    reflexivity.
Qed.

Lemma log_resetSelection p st :
  log (resetSelection p) st
  = (if onSelect_ p then [Call (CallSelect None)] else [])
    ++ (if onSearchTextChange_ p then [Call (CallSearchTextChange "")] else [])
    ++ (if onLookupRequest_ p then [Call (CallLookupRequest "")] else [])
    ++ [SetTimeout FocusSearchInput 10].
Proof.
  unfold resetSelection, onResetSelection, onSearchTextChange,
    onLookupRequest, call.
  destruct (onSelect_ p), (onSearchTextChange_ p), (onLookupRequest_ p);
    reflexivity.
Qed.

(** C3 (amended): from every starting state, [resetSelection] results in
    [selected === null] when [selected] is not a controlled prop and in
    [searchText === ''] when [searchText] is not a controlled prop (a
    controlled value keeps the value of its prop), and it invokes the
    [onLookupRequest] callback, when one is supplied, exactly once, with the
    empty string as its argument. *)
Theorem C3_resetSelection (p : LookupProps) (st : LookupState) :
  let st1 := exec (resetSelection p) st in
  (selected_ p = None -> selected p st1 = None)
  /\ (searchText_ p = None -> searchText p st1 = "")
  /\ (forall v, selected_ p = Some v -> selected p st1 = v)
  /\ (forall v, searchText_ p = Some v -> searchText p st1 = v)
  /\ (onLookupRequest_ p = true ->
      lookupRequests (log (resetSelection p) st) = [""]).
Proof.
  cbv zeta. rewrite exec_resetSelection, log_resetSelection.
  unfold selected, searchText.
  destruct (selected_ p), (searchText_ p), (opened_ p), (onSelect_ p),
    (onSearchTextChange_ p), (onLookupRequest_ p); cbn;
    repeat split; intros; congruence.
Qed.

(** Backspace on the pill of a widget that owns its values and was given
    every callback. *)
Lemma C3_resetSelection_witness :
  let p := withCallbacks noProps in
  let st := mkState (Some entryX) false "ann" "" false in
  selected p (exec (resetSelection p) st) = None
  /\ searchText p (exec (resetSelection p) st) = ""
  /\ lookupRequests (log (resetSelection p) st) = [""].
Proof.
  cbv zeta.
  destruct (C3_resetSelection (withCallbacks noProps)
              (mkState (Some entryX) false "ann" "" false))
    as (Hsel & Htext & _ & _ & Hreq).
  split; [apply Hsel | split; [apply Htext | apply Hreq]]; reflexivity.
Defined.

(** C3 as first stated fails when the caller owns [selected]: with the prop
    [selected] held at an entry, [selected] is that entry, not null, after
    [resetSelection]. *)
Lemma C3_counterexample :
  let p := controlSelected (Some entryX) (withCallbacks noProps) in
  let st := initialState p in
  selected p (exec (resetSelection p) st) = Some entryX
  /\ ~ (selected p (exec (resetSelection p) st) = None
        /\ searchText p (exec (resetSelection p) st) = ""
        /\ lookupRequests (log (resetSelection p) st) = [""]).
Proof.
  cbv zeta. split; [reflexivity|].
  intros [H _]. vm_compute in H. discriminate H.
Qed.

(** ** Keys in the search field *)

(** The search bar on its own: Enter runs [onSubmit] on a non-empty text and
    [onComplete] without an argument on the empty text; Escape runs
    [onComplete(true)]; Down runs [onPressDown]; every key then reaches
    [onKeyDown]. *)
Lemma onInputKeyDown_enter props text :
  onInputKeyDown props (mkKey 13 text)
  = (effect PreventDefault ;;
     effect StopPropagation ;;
     if truthy text then opt0 (ls_onSubmit props)
     else opt1 (ls_onComplete props) None) ;;
    opt1 (ls_onKeyDown props) (mkKey 13 text).
Proof. reflexivity. Qed.

Lemma onInputKeyDown_escape props text :
  onInputKeyDown props (mkKey 27 text)
  = (effect PreventDefault ;;
     effect StopPropagation ;;
     opt1 (ls_onComplete props) (Some true)) ;;
    opt1 (ls_onKeyDown props) (mkKey 27 text).
Proof. reflexivity. Qed.

Lemma onInputKeyDown_down props text :
  onInputKeyDown props (mkKey 40 text)
  = (effect PreventDefault ;;
     effect StopPropagation ;;
     opt0 (ls_onPressDown props)) ;;
    opt1 (ls_onKeyDown props) (mkKey 40 text).
Proof. reflexivity. Qed.

(** C4 (amended): when Enter is pressed in the search text field and the
    text of the field is empty, the widget calls [onComplete] with no
    [cancel] argument ([cancel] is undefined, not [false]) and changes no
    state, so the candidate list is not opened; when the text is non-empty it
    emits [submit] instead and no [complete]. *)
Theorem C4_enter_key (p : LookupProps) (st : LookupState) (e : KeyboardEvent) :
  keyCode e = 13 ->
  (currentTarget_value e = "" ->
     completes (log (searchKeyDown p e) st)
     = (if onComplete p then [None] else [])
     /\ lookupRequests (log (searchKeyDown p e) st) = []
     /\ exec (searchKeyDown p e) st = st
     /\ opened p (exec (searchKeyDown p e) st) = opened p st)
  /\ (currentTarget_value e <> "" ->
     completes (log (searchKeyDown p e) st) = []
     /\ exec (searchKeyDown p e) st = exec (submit p) st
     /\ log (searchKeyDown p e) st
        = [PreventDefault; StopPropagation]
          ++ log (submit p) st
          ++ (if onKeyDown_ p then [Call (CallKeyDown e)] else [])).
Proof.
  destruct e as [code text]; cbn [keyCode currentTarget_value].
  intros ->. split.
  - intros ->. unfold_handlers. break_props p. destruct st.
    break_ifs; cbn; repeat split; reflexivity.
  - intros Htext. destruct text as [|c text]; [congruence|].
    unfold_handlers. break_props p. destruct st.
    break_ifs; cbn; repeat split; reflexivity.
Qed.

Lemma C4_enter_key_witness :
  let p := withCallbacks noProps in
  let idle := initialState p in
  let typed := mkState None false "ann" "" false in
  completes (log (searchKeyDown p (enterKey "")) idle) = [None]
  /\ opened p (exec (searchKeyDown p (enterKey "")) idle) = false
  /\ lookupRequests (log (searchKeyDown p (enterKey "ann")) typed) = ["ann"].
Proof.
  cbv zeta.
  destruct (C4_enter_key (withCallbacks noProps)
              (initialState (withCallbacks noProps)) (enterKey "")
              eq_refl) as [Hempty _].
  destruct (Hempty eq_refl) as (Hc & _ & _ & Hop).
  destruct (C4_enter_key (withCallbacks noProps)
              (mkState None false "ann" "" false) (enterKey "ann")
              eq_refl) as [_ Hfull].
  destruct Hfull as (_ & _ & Hlog); [discriminate|].
  split; [exact Hc | split; [rewrite Hop; reflexivity | rewrite Hlog; reflexivity]].
Defined.

(** C4 as first stated fails: on Enter with the empty text the argument of
    [onComplete] is left out, so no [complete] with [cancel = false] is
    emitted. *)
Lemma C4_counterexample :
  let p := withCallbacks noProps in
  let st := initialState p in
  log (searchKeyDown p (enterKey "")) st
  = [PreventDefault; StopPropagation; Call (CallComplete None);
     Call (CallKeyDown (enterKey ""))]
  /\ ~ In (Call (CallComplete (Some false)))
          (log (searchKeyDown p (enterKey "")) st).
Proof.
  cbv zeta. split; [reflexivity|].
  vm_compute. intros [H|[H|[H|[H|[]]]]]; discriminate H.
Qed.

(** C5: when Escape is pressed in the search text field with a non-empty
    text, the widget emits exactly one [complete] event, with
    [cancel = true] (the call [onComplete(true)] on the callback the caller
    supplied), and [searchText] is left as it was. *)
Theorem C5_escape_key (p : LookupProps) (st : LookupState) (e : KeyboardEvent) :
  keyCode e = 27 ->
  currentTarget_value e <> "" ->
  onComplete p = true ->
  completes (log (searchKeyDown p e) st) = [Some true]
  /\ searchText p (exec (searchKeyDown p e) st) = searchText p st
  /\ exec (searchKeyDown p e) st = st.
Proof.
  destruct e as [code text]; cbn [keyCode currentTarget_value].
  intros -> _ Hcomplete.
  unfold_handlers. break_props p. destruct st. cbn in Hcomplete. subst.
  break_ifs; cbn; repeat split; reflexivity.
Qed.

Lemma C5_escape_key_witness :
  let p := withCallbacks noProps in
  let st := mkState None true "ann" "" false in
  completes (log (searchKeyDown p (escapeKey "ann")) st) = [Some true]
  /\ searchText p (exec (searchKeyDown p (escapeKey "ann")) st) = "ann".
Proof.
  cbv zeta.
  destruct (C5_escape_key (withCallbacks noProps)
              (mkState None true "ann" "" false) (escapeKey "ann"))
    as (Hc & Htext & _);
    [reflexivity | discriminate | reflexivity |].
  split; [exact Hc | rewrite Htext; reflexivity].
Defined.

(** ** Down arrow in the search field *)

Lemma or_empty (s : string) : (if truthy s then s else "") = s.
Proof. destruct s; reflexivity. Qed.

(** On a closed list [pressDown] is [submit]: same state, same log. *)
Lemma pressDown_closed p st :
  opened p st = false ->
  exec (pressDown p) st = exec (submit p) st
  /\ log (pressDown p) st = log (submit p) st.
Proof.
  intros Hclosed. unfold pressDown, submit, exec, log.
  cbn [searchProps ls_onPressDown ls_onSubmit opt0].
  unfold onFocusFirstCandidate.
  rewrite Hclosed, or_empty. cbn [negb]. split; reflexivity.
Qed.

Lemma exec_submit p st :
  exec (submit p) st
  = with_opened (snd (useControlledValue (opened_ p) (st_opened st)) true) st.
Proof.
  unfold_handlers. break_props p. break_ifs; reflexivity.
Qed.

Lemma log_submit p st :
  log (submit p) st
  = if onLookupRequest_ p then [Call (CallLookupRequest (searchText p st))]
    else [].
Proof.
  unfold submit, log. cbn [searchProps ls_onSubmit opt0]. rewrite or_empty.
  unfold_handlers. break_props p. break_ifs; reflexivity.
Qed.

(** C6 (amended): in every state, if [opened == false] then [pressDown] acts
    like [submit]: it invokes [onLookupRequest] with the current
    [searchText] and sets [opened = true] when [opened] is not a controlled
    prop (a controlled [opened] keeps the value of its prop); if
    [opened == true] it sets the one-shot flag [focusFirstCandidate] to true
    and schedules its reset, after which the flag is false again, [opened]
    and [searchText] being unchanged throughout. *)
Theorem C6_pressDown (p : LookupProps) (st : LookupState) :
  (opened p st = false ->
     exec (pressDown p) st = exec (submit p) st
     /\ log (pressDown p) st = log (submit p) st
     /\ (opened_ p = None -> opened p (exec (pressDown p) st) = true)
     /\ (forall v, opened_ p = Some v -> opened p (exec (pressDown p) st) = v)
     /\ lookupRequests (log (pressDown p) st)
        = (if onLookupRequest_ p then [searchText p st] else [])
     /\ searchText p (exec (pressDown p) st) = searchText p st)
  /\ (opened p st = true ->
     let st1 := exec (pressDown p) st in
     focusFirstCandidate st1 = true
     /\ log (pressDown p) st = [SetTimeout ClearFocusFirstCandidate 10]
     /\ opened p st1 = true
     /\ searchText p st1 = searchText p st
     /\ forall dom,
          let st2 := exec (runTimers p dom (timeouts (log (pressDown p) st)))
                          st1 in
          focusFirstCandidate st2 = false
          /\ opened p st2 = true
          /\ searchText p st2 = searchText p st).
Proof.
  split.
  - intros Hclosed. destruct (pressDown_closed p st Hclosed) as [He Hl].
    rewrite He, Hl, exec_submit, log_submit.
    unfold opened, searchText. destruct (opened_ p), (searchText_ p),
      (onLookupRequest_ p); cbn; repeat split; intros; congruence.
  - intros Hopen. cbv zeta. unfold pressDown, exec, log.
    cbn [searchProps ls_onPressDown opt0].
    unfold onFocusFirstCandidate. rewrite Hopen. cbn [negb].
    revert Hopen. unfold_handlers. break_props p. destruct st.
    cbn. intros Hopen. repeat split; assumption.
Qed.

Lemma C6_pressDown_witness :
  let p := withCallbacks noProps in
  let closed := mkState None false "ann" "" false in
  let open := mkState None true "ann" "" false in
  opened p (exec (pressDown p) closed) = true
  /\ lookupRequests (log (pressDown p) closed) = ["ann"]
  /\ focusFirstCandidate (exec (pressDown p) open) = true.
Proof.
  cbv zeta.
  destruct (C6_pressDown (withCallbacks noProps)
              (mkState None false "ann" "" false)) as [Hclosed _].
  destruct (Hclosed eq_refl) as (_ & _ & Hop & _ & Hreq & _).
  destruct (C6_pressDown (withCallbacks noProps)
              (mkState None true "ann" "" false)) as [_ Hopen].
  destruct (Hopen eq_refl) as (Hflag & _).
  split; [apply Hop; reflexivity | split; [rewrite Hreq; reflexivity | exact Hflag]].
Defined.

(** C6 as first stated fails when the caller owns [opened]: with the prop
    [opened] held at false, [pressDown] requests the candidates but [opened]
    is still false afterwards. *)
Lemma C6_counterexample :
  let p := controlOpened false (withCallbacks noProps) in
  let st := mkState None false "ann" "" false in
  opened p st = false
  /\ lookupRequests (log (pressDown p) st) = ["ann"]
  /\ opened p (exec (pressDown p) st) <> true.
Proof.
  cbv zeta. split; [reflexivity | split; [reflexivity|]].
  vm_compute. discriminate.
Qed.

(** ** Roving focus in the candidate list *)

(** The loop stops on the nearest row that takes the focus, when there is
    one. *)
Lemma scan_Some chain k :
  scan chain = Some k ->
  enabled chain k = true /\ forall j, j < k -> enabled chain j = false.
Proof.
  revert k. induction chain as [|itemEl rest IH]; intros k; cbn [scan].
  - discriminate.
  - destruct (focusable itemEl) eqn:Hfocus.
    + intros [= <-]. split; [exact Hfocus | intros j Hj; lia].
    + destruct (scan rest) as [k'|]; cbn [option_map]; [|discriminate].
      intros [= <-]. destruct (IH k' eq_refl) as [Hk Hbefore].
      split; [exact Hk|].
      intros [|j] Hj; [exact Hfocus | apply Hbefore; lia].
Qed.

Lemma scan_None chain :
  scan chain = None -> forall j, enabled chain j = false.
Proof.
  induction chain as [|itemEl rest IH]; cbn [scan].
  - intros _ [|j]; reflexivity.
  - destruct (focusable itemEl) eqn:Hfocus; [discriminate|].
    destruct (scan rest); cbn [option_map]; [discriminate|].
    intros _ [|j]; [exact Hfocus | apply IH; reflexivity].
Qed.

Lemma enabled_nextSiblings items index k :
  enabled (nextSiblings items index) k = enabled items (S index + k).
Proof.
  unfold enabled, nextSiblings. rewrite nth_error_skipn. reflexivity.
Qed.

Lemma enabled_previousSiblings items index k :
  index <= List.length items -> k < index ->
  enabled (previousSiblings items index) k = enabled items (index - 1 - k).
Proof.
  intros Hindex Hk. unfold enabled, previousSiblings.
  rewrite nth_error_rev, length_firstn, Nat.min_l by exact Hindex.
  destruct (Nat.ltb_spec k index) as [_|Hge]; [|lia].
  rewrite nth_error_firstn.
  destruct (Nat.ltb_spec (index - S k) index) as [_|Hge]; [|lia].
  replace (index - 1 - k) with (index - S k) by lia. reflexivity.
Qed.

Lemma enabled_lt_length items k :
  enabled items k = true -> k < List.length items.
Proof.
  unfold enabled. destruct (nth_error items k) eqn:Hnth; [|discriminate].
  intros _. apply nth_error_Some. congruence.
Qed.

(** The log of an arrow key on row [target]. *)
Lemma log_listKeyDown_down p items target e st :
  keyCode e = 40 ->
  log (listKeyDown p items target e) st
  = [PreventDefault; StopPropagation]
    ++ match scan (nextSiblings items target) with
       | Some k => [Focus (CandidateAnchor (S target + k))]
       | None => []
       end
    /\ exec (listKeyDown p items target e) st = st.
Proof.
  destruct e as [code text]; cbn [keyCode]. intros ->.
  unfold listKeyDown, CandidateList.onKeyDown, exec, log.
  cbn [keyCode Nat.eqb orb].
  destruct (scan (nextSiblings items target)); destruct st;
    split; reflexivity.
Qed.

Lemma log_listKeyDown_up p items target e st :
  keyCode e = 38 ->
  log (listKeyDown p items target e) st
  = [PreventDefault; StopPropagation]
    ++ match scan (previousSiblings items target) with
       | Some k => [Focus (CandidateAnchor (target - 1 - k))]
       | None => []
       end
    /\ exec (listKeyDown p items target e) st = st.
Proof.
  destruct e as [code text]; cbn [keyCode]. intros ->.
  unfold listKeyDown, CandidateList.onKeyDown, exec, log.
  cbn [keyCode Nat.eqb orb].
  destruct (scan (previousSiblings items target)); destruct st;
    split; reflexivity.
Qed.

(** C7: in the candidate list, for every list of rows and every focused row
    [i], Down moves the focus to the nearest following enabled row and Up to
    the nearest preceding enabled row, stepping over the rows that are
    disabled (or hold no candidate); when there is no such row the focus
    stays on row [i]: it never wraps around to the other end. *)
Theorem C7_roving_focus (p : LookupProps) (st : LookupState)
    (items : list ListItem) (i : nat) (down up : KeyboardEvent) :
  i < List.length items ->
  keyCode down = 40 ->
  keyCode up = 38 ->
  let afterDown := focusedRow (log (listKeyDown p items i down) st) i in
  let afterUp := focusedRow (log (listKeyDown p items i up) st) i in
  ((i < afterDown
    /\ enabled items afterDown = true
    /\ forall k, i < k < afterDown -> enabled items k = false)
   \/ (afterDown = i /\ forall k, i < k -> enabled items k = false))
  /\ ((afterUp < i
       /\ enabled items afterUp = true
       /\ forall k, afterUp < k < i -> enabled items k = false)
      \/ (afterUp = i /\ forall k, k < i -> enabled items k = false)).
Proof.
  intros Hi Hdown Hup. cbv zeta.
  destruct (log_listKeyDown_down p items i down st Hdown) as [-> _].
  destruct (log_listKeyDown_up p items i up st Hup) as [-> _].
  split.
  - destruct (scan (nextSiblings items i)) as [k|] eqn:Hscan;
      cbn [app focusedRow fold_left].
    + left. destruct (scan_Some _ _ Hscan) as [Hk Hbefore].
      rewrite enabled_nextSiblings in Hk.
      split; [lia | split; [exact Hk|]].
      intros j Hj. specialize (Hbefore (j - S i)).
      rewrite enabled_nextSiblings in Hbefore.
      replace (S i + (j - S i)) with j in Hbefore by lia.
      apply Hbefore. lia.
    + right. split; [reflexivity|].
      intros j Hj. pose proof (scan_None _ Hscan (j - S i)) as Hnone.
      rewrite enabled_nextSiblings in Hnone.
      replace (S i + (j - S i)) with j in Hnone by lia. exact Hnone.
  - assert (Hle : i <= List.length items) by lia.
    assert (Hlen : List.length (previousSiblings items i) = i).
    { unfold previousSiblings. rewrite length_rev, length_firstn. lia. }
    destruct (scan (previousSiblings items i)) as [k|] eqn:Hscan;
      cbn [app focusedRow fold_left].
    + left. destruct (scan_Some _ _ Hscan) as [Hk Hbefore].
      pose proof (enabled_lt_length _ _ Hk) as Hklt. rewrite Hlen in Hklt.
      rewrite enabled_previousSiblings in Hk by assumption.
      split; [lia | split; [exact Hk|]].
      intros j Hj. specialize (Hbefore (i - 1 - j)).
      rewrite enabled_previousSiblings in Hbefore by lia.
      replace (i - 1 - (i - 1 - j)) with j in Hbefore by lia.
      apply Hbefore. lia.
    + right. split; [reflexivity|].
      intros j Hj. pose proof (scan_None _ Hscan (i - 1 - j)) as Hnone.
      rewrite enabled_previousSiblings in Hnone by lia.
      replace (i - 1 - (i - 1 - j)) with j in Hnone by lia. exact Hnone.
Qed.

(** Three rows, the focus on the second. *)
Lemma C7_roving_focus_witness :
  let items := [CandidateItem None; CandidateItem None; CandidateItem None] in
  let st := mkState None true "" "" false in
  1 < List.length items
  /\ let afterDown := focusedRow (log (listKeyDown noProps items 1 downKey) st) 1 in
     let afterUp := focusedRow (log (listKeyDown noProps items 1 upKey) st) 1 in
     ((1 < afterDown
       /\ enabled items afterDown = true
       /\ forall k, 1 < k < afterDown -> enabled items k = false)
      \/ (afterDown = 1 /\ forall k, 1 < k -> enabled items k = false))
     /\ ((afterUp < 1
          /\ enabled items afterUp = true
          /\ forall k, afterUp < k < 1 -> enabled items k = false)
         \/ (afterUp = 1 /\ forall k, k < 1 -> enabled items k = false)).
Proof.
  cbv zeta. split; [cbn; lia|].
  apply (C7_roving_focus noProps (mkState None true "" "" false)
           [CandidateItem None; CandidateItem None; CandidateItem None]
           1 downKey upKey); [cbn; lia | reflexivity | reflexivity].
Defined.

(** The scenario of three rows: from the second row Down reaches the third,
    Down again stays there; a disabled row and the loading row are stepped
    over. *)
Example roving_focus_three_rows :
  let items := [CandidateItem None; CandidateItem None; CandidateItem None] in
  let st := mkState None true "" "" false in
  focusedRow (log (listKeyDown noProps items 1 downKey) st) 1 = 2
  /\ focusedRow (log (listKeyDown noProps items 2 downKey) st) 2 = 2
  /\ focusedRow (log (listKeyDown noProps items 1 upKey) st) 1 = 0
  /\ focusedRow (log (listKeyDown noProps items 0 upKey) st) 0 = 0.
Proof. cbv zeta. repeat split. Qed.

(** The rows rendered from three entries are all enabled. *)
Example roving_focus_rendered :
  let entries := [Entry.mk "One" "1" None None None None;
                  Entry.mk "Two" "2" None None None None;
                  Entry.mk "Three" "3" None None None None] in
  let p := mkProps None None (Some true) None None None None None
                   None false None false false true (Some entries) None
                   false false None
                   false false false false false false false false in
  let st := initialState p in
  let items := renderItems (candidateListProps p st) in
  items = [CandidateItem None; CandidateItem None; CandidateItem None;
           LoadingItem]
  /\ focusedRow (log (listKeyDown p items 1 downKey) st) 1 = 2
  /\ focusedRow (log (listKeyDown p items 2 downKey) st) 2 = 2.
Proof. cbv zeta. repeat split. Qed.

Example roving_focus_skips :
  let items := [CandidateItem None; CandidateItem (Some "true"); LoadingItem;
                CandidateItem None] in
  let st := mkState None true "" "" false in
  focusedRow (log (listKeyDown noProps items 0 downKey) st) 0 = 3
  /\ focusedRow (log (listKeyDown noProps items 3 upKey) st) 3 = 0.
Proof. cbv zeta. repeat split. Qed.

(** ** The active scope of the search bar *)

Lemma scopeLoop_no_match scopes targetScope target :
  (forall scope, In scope scopes -> ~ scopeMatches targetScope scope) ->
  scopeLoop scopes targetScope target = target.
Proof.
  unfold scopeMatches.
  induction scopes as [|scope rest IH]; intros Hnone; cbn [scopeLoop].
  - reflexivity.
  - assert (Hrest : forall s, In s rest -> targetScope <> Some (LookupScope.value s))
      by (intros s Hs; apply Hnone; right; exact Hs).
    destruct targetScope as [ts|]; [|apply IH; exact Hrest].
    destruct (String.eqb_spec (LookupScope.value scope) ts) as [Heq|_].
    + exfalso. apply (Hnone scope); [left; reflexivity | congruence].
    + apply IH. exact Hrest.
Qed.

Lemma scopeLoop_first_match before scope after targetScope target :
  scopeMatches targetScope scope ->
  (forall s, In s before -> ~ scopeMatches targetScope s) ->
  scopeLoop (before ++ scope :: after) targetScope target = Some scope.
Proof.
  unfold scopeMatches. intros Hmatch.
  induction before as [|s before IH]; intros Hnone; cbn [scopeLoop app].
  - rewrite Hmatch, String.eqb_refl. reflexivity.
  - assert (Hrest : forall s', In s' before ->
                      targetScope <> Some (LookupScope.value s'))
      by (intros s' Hs'; apply Hnone; right; exact Hs').
    rewrite Hmatch in *.
    destruct (String.eqb_spec (LookupScope.value s) (LookupScope.value scope))
      as [Heq|_].
    + exfalso. apply (Hnone s); [left; reflexivity | congruence].
    + apply IH. exact Hrest.
Qed.

(** C8: in the search bar with a non-empty [scopes] list, if no scope of the
    list has its [value] equal to [targetScope] (whatever value that is, or
    none at all) the scope displayed is the first of the list, and no error
    is signalled: the result is always a scope of the list; if some scope
    matches, the first one that does is displayed. *)
Theorem C8_scope_fallback (first : LookupScope) (others : list LookupScope)
    (targetScope : option string) :
  let scopes := first :: others in
  ((forall scope, In scope scopes -> ~ scopeMatches targetScope scope) ->
     scopeTarget scopes targetScope = Some first)
  /\ (forall before scope after,
        scopes = before ++ scope :: after ->
        scopeMatches targetScope scope ->
        (forall s, In s before -> ~ scopeMatches targetScope s) ->
        scopeTarget scopes targetScope = Some scope)
  /\ (exists scope,
        scopeTarget scopes targetScope = Some scope /\ In scope scopes).
Proof.
  cbv zeta. unfold scopeTarget. cbn [nth_error].
  assert (Hnone : (forall scope, In scope (first :: others) ->
                     ~ scopeMatches targetScope scope) ->
                  scopeLoop (first :: others) targetScope (Some first)
                  = Some first)
    by (apply scopeLoop_no_match).
  assert (Hsome : forall before scope after,
             first :: others = before ++ scope :: after ->
             scopeMatches targetScope scope ->
             (forall s, In s before -> ~ scopeMatches targetScope s) ->
             scopeLoop (first :: others) targetScope (Some first) = Some scope).
  { intros before scope after -> Hmatch Hbefore.
    apply scopeLoop_first_match; assumption. }
  split; [exact Hnone | split; [exact Hsome|]].
  assert (Hin : forall scopes target,
             scopeLoop scopes targetScope target = target
             \/ exists scope, scopeLoop scopes targetScope target = Some scope
                              /\ In scope scopes).
  { intros scopes.
    induction scopes as [|scope rest IH]; intros target; cbn [scopeLoop].
    - left. reflexivity.
    - assert (Hrest : scopeLoop rest targetScope target = target
                      \/ exists s, scopeLoop rest targetScope target = Some s
                                   /\ In s (scope :: rest)).
      { destruct (IH target) as [Heq|(s & Heq & Hs)];
          [left; exact Heq | right; exists s; split; [exact Heq | right; exact Hs]]. }
      destruct targetScope as [ts|]; [|exact Hrest].
      destruct (String.eqb (LookupScope.value scope) ts); [|exact Hrest].
      right. exists scope. split; [reflexivity | left; reflexivity]. }
  destruct (Hin (first :: others) (Some first)) as [Heq|Hex].
  - exists first. split; [exact Heq | left; reflexivity].
  - exact Hex.
Qed.

Lemma C8_scope_fallback_witness :
  let account := LookupScope.mk "Account" "account" "standard:account" in
  let contact := LookupScope.mk "Contact" "contact" "standard:contact" in
  scopeTarget [account; contact] (Some "lead") = Some account
  /\ scopeTarget [account; contact] (Some "contact") = Some contact.
Proof.
  cbv zeta.
  destruct (C8_scope_fallback
              (LookupScope.mk "Account" "account" "standard:account")
              [LookupScope.mk "Contact" "contact" "standard:contact"]
              (Some "lead")) as (Hnone & _ & _).
  destruct (C8_scope_fallback
              (LookupScope.mk "Account" "account" "standard:account")
              [LookupScope.mk "Contact" "contact" "standard:contact"]
              (Some "contact")) as (_ & Hsome & _).
  split.
  - apply Hnone. unfold scopeMatches.
    intros scope [<-|[<-|[]]]; cbn; discriminate.
  - apply (Hsome [LookupScope.mk "Account" "account" "standard:account"]
                 (LookupScope.mk "Contact" "contact" "standard:contact") []).
    + reflexivity.
    + reflexivity.
    + unfold scopeMatches. intros s [<-|[]]; cbn; discriminate.
Defined.

(** ** Losing the focus *)

Lemma exec_BlurCheck_outside p dom st :
  isFocusedInComponent dom = false ->
  exec (runTimer p dom BlurCheck) st
  = with_opened (snd (useControlledValue (opened_ p) (st_opened st)) false) st
  /\ log (runTimer p dom BlurCheck) st
     = (if onBlur_ p then [Call CallBlur] else [])
       ++ (if onComplete p then [Call (CallComplete (Some true))] else []).
Proof.
  intros Hout. unfold exec, log, runTimer. rewrite Hout. cbn [negb].
  unfold_handlers. break_props p. break_ifs; split; reflexivity.
Qed.

Lemma exec_BlurCheck_inside p dom st :
  isFocusedInComponent dom = true ->
  exec (runTimer p dom BlurCheck) st = st
  /\ log (runTimer p dom BlurCheck) st = [].
Proof.
  intros Hin. unfold exec, log, runTimer. rewrite Hin. split; reflexivity.
Qed.









(** ** Completion after a selection *)

Lemma log_select p st entry :
  log (select p entry) st
  = match entry with
    | Some e =>
        (if onSelect_ p then [Call (CallSelect (Some e))] else [])
        ++ [SetTimeout FocusPill 10]
    | None => [SetTimeout FocusSearchInput 10]
    end
    ++ (if onComplete p then [Call (CallComplete None)] else []).
Proof.
  unfold_handlers. break_props p. destruct entry; break_ifs; reflexivity.
Qed.

(** C10: every selection event of the candidate list, [select(e)] for an
    entry [e] as well as [select(null)], invokes the [onComplete] callback
    the caller supplied, on top of the updates of [selected] and [opened] and
    of the [onSelect] notification: one call, the last of the handler, with
    no [cancel] argument ([cancel] undefined). *)
Theorem C10_select_completes (p : LookupProps) (st : LookupState)
    (entry : option Entry) :
  onComplete p = true ->
  completes (log (select p entry) st) = [None]
  /\ exists before,
       log (select p entry) st = before ++ [Call (CallComplete None)]
       /\ completes before = [].
Proof.
  intros Hcomplete. rewrite log_select, Hcomplete.
  split.
  - destruct entry, (onSelect_ p); reflexivity.
  - eexists. split; [reflexivity|].
    destruct entry, (onSelect_ p); reflexivity.
Qed.

Lemma C10_select_completes_witness :
  let p := withCallbacks noProps in
  let st := mkState None true "ann" "" false in
  completes (log (select p (Some entryX)) st) = [None]
  /\ completes (log (select p None) st) = [None].
Proof.
  cbv zeta. split.
  - apply (C10_select_completes (withCallbacks noProps)
             (mkState None true "ann" "" false) (Some entryX)). reflexivity.
  - apply (C10_select_completes (withCallbacks noProps)
             (mkState None true "ann" "" false) None). reflexivity.
Defined.

(* ------------------------------------------------------------------ *)
(** * Further properties of the components *)

(** ** Sequencing *)

Lemma exec_bind {A B : Type} (m : M A) (k : A -> M B) st :
  exec (bind m k) st = exec (k (fst (fst (m st)))) (exec m st).
Proof. reflexivity. Qed.

Lemma log_bind {A B : Type} (m : M A) (k : A -> M B) st :
  log (bind m k) st = log m st ++ log (k (fst (fst (m st)))) (exec m st).
Proof. reflexivity. Qed.

Lemma lookupRequests_app l1 l2 :
  lookupRequests (l1 ++ l2) = lookupRequests l1 ++ lookupRequests l2.
Proof. apply flat_map_app. Qed.

Lemma searchTextChanges_app l1 l2 :
  searchTextChanges (l1 ++ l2) = searchTextChanges l1 ++ searchTextChanges l2.
Proof. apply flat_map_app. Qed.

Lemma completes_app l1 l2 :
  completes (l1 ++ l2) = completes l1 ++ completes l2.
Proof. apply flat_map_app. Qed.

Lemma calls_app l1 l2 : calls (l1 ++ l2) = calls l1 ++ calls l2.
Proof. apply flat_map_app. Qed.

(** ** The scope selector events of the orchestrator *)

Lemma exec_onScopeMenuClick p st :
  exec (onScopeMenuClick p) st
  = with_opened (snd (useControlledValue (opened_ p) (st_opened st)) false) st.
Proof.
  unfold_handlers. break_props p. break_ifs; reflexivity.
Qed.

(** Opening the scope menu closes the candidate list of a widget that owns
    [opened], so that the list is no longer in the rendered tree; it forwards
    the click to [onScopeMenuClick] once and touches nothing else. *)
Theorem scopeMenuClick_closes_list (p : LookupProps) (st : LookupState) :
  let st1 := exec (onScopeMenuClick p) st in
  (opened_ p = None ->
     opened p st1 = false
     /\ contains isLookupCandidateList (Lookup p st1) = false)
  /\ selected p st1 = selected p st
  /\ searchText p st1 = searchText p st
  /\ targetScope p st1 = targetScope p st
  /\ focusFirstCandidate st1 = focusFirstCandidate st
  /\ log (onScopeMenuClick p) st
     = (if onScopeMenuClick_ p then [Call CallScopeMenuClick] else []).
Proof.
  cbv zeta. rewrite exec_onScopeMenuClick. split.
  - intros Hown. rewrite contains_Lookup by reflexivity.
    unfold opened, selected. rewrite Hown. cbn.
    split; [reflexivity|].
    destruct (selected_ p) as [[entry|]|]; cbn;
      try destruct (st_selected st); reflexivity.
  - unfold_handlers. break_props p. destruct st. cbn.
    break_ifs; repeat split; reflexivity.
Qed.

Lemma scopeMenuClick_closes_list_witness :
  let p := withCallbacks noProps in
  let st := mkState None true "ann" "" false in
  opened p (exec (onScopeMenuClick p) st) = false
  /\ contains isLookupCandidateList (Lookup p (exec (onScopeMenuClick p) st))
     = false.
Proof.
  cbv zeta.
  destruct (scopeMenuClick_closes_list (withCallbacks noProps)
              (mkState None true "ann" "" false)) as [Hclose _].
  apply Hclose. reflexivity.
Defined.

Lemma exec_onScopeSelect p st v :
  exec (onScopeSelect p v) st
  = with_targetScope
      (snd (useControlledValue (targetScope_ p) (st_targetScope st)) v) st.
Proof.
  unfold_handlers. break_props p. break_ifs; reflexivity.
Qed.

(** Choosing a scope sets [targetScope] of a widget that owns it, forwards
    the value to [onScopeSelect] once, neither opens nor closes the list, and
    from then on the rows shown are the entries [lookupFilter] accepts for
    the current search text and the new scope. *)
Theorem scopeSelect_retargets (p : LookupProps) (st : LookupState)
    (v : string) :
  targetScope_ p = None ->
  let st1 := exec (onScopeSelect p v) st in
  targetScope p st1 = v
  /\ opened p st1 = opened p st
  /\ selected p st1 = selected p st
  /\ searchText p st1 = searchText p st
  /\ log (onScopeSelect p v) st
     = (if onScopeSelect_ p then [Call (CallScopeSelect v)] else [])
  /\ forall f, lookupFilter p = Some f ->
       shownEntries (candidateListProps p st1)
       = filter (fun entry => f entry (searchText p st) v) (nullish (data p) []).
Proof.
  intros Hown. cbv zeta. rewrite exec_onScopeSelect.
  assert (Hshown : forall f, lookupFilter p = Some f ->
            shownEntries
              (candidateListProps p
                 (with_targetScope
                    (snd (useControlledValue (targetScope_ p)
                            (st_targetScope st)) v) st))
            = filter (fun entry => f entry (searchText p st) v)
                     (nullish (data p) [])).
  { intros f Hf. unfold shownEntries, candidateListProps.
    cbn [cl_filter cl_data]. rewrite Hf.
    unfold searchText, targetScope. rewrite Hown. reflexivity. }
  assert (Hlog : log (onScopeSelect p v) st
                 = (if onScopeSelect_ p then [Call (CallScopeSelect v)] else [])).
  { unfold_handlers. break_props p. break_ifs; reflexivity. }
  unfold targetScope, opened, selected, searchText in *.
  rewrite Hown. cbn.
  split; [reflexivity|]. split; [reflexivity|]. split; [reflexivity|].
  split; [reflexivity|]. split; [exact Hlog|].
  rewrite Hown in Hshown. exact Hshown.
Qed.

Lemma scopeSelect_retargets_witness :
  let p := withCallbacks noProps in
  let st := mkState None true "ann" "account" false in
  targetScope p (exec (onScopeSelect p "contact") st) = "contact"
  /\ opened p (exec (onScopeSelect p "contact") st) = true.
Proof.
  cbv zeta.
  destruct (scopeSelect_retargets (withCallbacks noProps)
              (mkState None true "ann" "account" false) "contact" eq_refl)
    as (Ht & Ho & _).
  split; [exact Ht | rewrite Ho; reflexivity].
Defined.

(** ** Typing in the search field *)

Lemma exec_searchChange p st text :
  exec (searchChange p text) st
  = with_searchText
      (snd (useControlledValue (searchText_ p) (st_searchText st)) text) st.
Proof.
  unfold_handlers. unfold searchChange, onInputChange. cbn.
  unfold_handlers. break_props p. break_ifs; reflexivity.
Qed.

Lemma log_searchChange p st text :
  log (searchChange p text) st
  = if onSearchTextChange_ p then [Call (CallSearchTextChange text)] else [].
Proof.
  unfold log, searchChange, onInputChange. cbn.
  unfold_handlers. break_props p. break_ifs; reflexivity.
Qed.

Lemma last_cons_default (l : list string) : forall a d d',
  last (a :: l) d = last (a :: l) d'.
Proof.
  induction l as [|b l IH]; intros a d d'; [reflexivity|].
  change (last (b :: l) d = last (b :: l) d'). apply IH.
Qed.

Lemma log_typing p texts : forall st,
  log (typing p texts) st
  = if onSearchTextChange_ p
    then map (fun text => Call (CallSearchTextChange text)) texts
    else [].
Proof.
  induction texts as [|text rest IH]; intros st; cbn [typing].
  - destruct (onSearchTextChange_ p); reflexivity.
  - rewrite log_bind, log_searchChange, IH.
    destruct (onSearchTextChange_ p); reflexivity.
Qed.

Lemma exec_typing p texts : forall st,
  searchText_ p = None ->
  exec (typing p texts) st
  = with_searchText (last texts (st_searchText st)) st.
Proof.
  induction texts as [|text rest IH]; intros st Hown; cbn [typing].
  - destruct st; reflexivity.
  - rewrite exec_bind, exec_searchChange, IH by exact Hown.
    rewrite Hown. destruct st. cbn [useControlledValue snd with_searchText
      st_selected st_opened st_searchText st_targetScope
      st_focusFirstCandidate].
    destruct rest as [|next rest]; [reflexivity|].
    rewrite (last_cons_default rest next text st_searchText0).
    reflexivity.
Qed.

(** Typing in the search field of a widget that owns [searchText]: after any
    run of changes the search text is the last text typed, every change has
    been forwarded to [onSearchTextChange] in order, and nothing else has
    happened: the list is neither opened nor closed, the selection is kept,
    no candidates are requested. *)
Theorem typing_keeps_last_text (p : LookupProps) (st : LookupState)
    (texts : list string) :
  searchText_ p = None ->
  searchText p (exec (typing p texts) st) = last texts (searchText p st)
  /\ opened p (exec (typing p texts) st) = opened p st
  /\ selected p (exec (typing p texts) st) = selected p st
  /\ log (typing p texts) st
     = (if onSearchTextChange_ p
        then map (fun text => Call (CallSearchTextChange text)) texts
        else []).
Proof.
  intros Hown. rewrite exec_typing, log_typing by exact Hown.
  unfold searchText, opened, selected. rewrite Hown.
  repeat split.
Qed.

Lemma typing_keeps_last_text_witness :
  let p := withCallbacks noProps in
  let st := initialState p in
  searchText p (exec (typing p ["a"; "an"; "ann"]) st) = "ann"
  /\ opened p (exec (typing p ["a"; "an"; "ann"]) st) = false.
Proof.
  cbv zeta.
  destruct (typing_keeps_last_text (withCallbacks noProps)
              (initialState (withCallbacks noProps)) ["a"; "an"; "ann"]
              eq_refl) as (Htext & Hopen & _).
  split; [rewrite Htext | rewrite Hopen]; reflexivity.
Defined.

Lemma searchKeyDown_enter_text p st c text :
  exec (searchKeyDown p (enterKey (String c text))) st = exec (submit p) st
  /\ log (searchKeyDown p (enterKey (String c text))) st
     = [PreventDefault; StopPropagation]
       ++ log (submit p) st
       ++ (if onKeyDown_ p
           then [Call (CallKeyDown (enterKey (String c text)))] else []).
Proof.
  unfold_handlers. break_props p. destruct st.
  break_ifs; split; reflexivity.
Qed.

(** Typing a text and pressing Enter, in a widget that owns [searchText] and
    [opened]: when the text in the field is the last text typed and is not
    empty, exactly one request for candidates is made, for that text, and the
    list is open afterwards. *)
Theorem typing_then_enter_requests (p : LookupProps) (st : LookupState)
    (texts : list string) (text : string) :
  searchText_ p = None ->
  opened_ p = None ->
  text <> "" ->
  let m := typing p (texts ++ [text]) ;; searchKeyDown p (enterKey text) in
  lookupRequests (log m st) = (if onLookupRequest_ p then [text] else [])
  /\ completes (log m st) = []
  /\ opened p (exec m st) = true
  /\ searchText p (exec m st) = text
  /\ selected p (exec m st) = selected p st.
Proof.
  intros Htext Hopen Hne. cbv zeta.
  destruct text as [|c text]; [congruence|].
  rewrite exec_bind, log_bind.
  destruct (searchKeyDown_enter_text p
              (exec (typing p (texts ++ [String c text])) st) c text)
    as [-> ->].
  rewrite exec_submit, log_submit, log_typing, exec_typing by exact Htext.
  rewrite last_last.
  unfold searchText, opened, selected. rewrite Htext, Hopen. cbn.
  rewrite !lookupRequests_app, !completes_app.
  assert (Hreq : forall l : list string,
            lookupRequests (map (fun t => Call (CallSearchTextChange t)) l) = [])
    by (induction l; [reflexivity | assumption]).
  assert (Hcom : forall l : list string,
            completes (map (fun t => Call (CallSearchTextChange t)) l) = [])
    by (induction l; [reflexivity | assumption]).
  destruct (onSearchTextChange_ p), (onLookupRequest_ p), (onKeyDown_ p);
    cbn; rewrite ?Hreq, ?Hcom; repeat split.
Qed.

Lemma typing_then_enter_requests_witness :
  let p := withCallbacks noProps in
  let st := initialState p in
  let m := typing p (["a"; "an"] ++ ["ann"]) ;; searchKeyDown p (enterKey "ann") in
  lookupRequests (log m st) = ["ann"] /\ opened p (exec m st) = true.
Proof.
  cbv zeta.
  destruct (typing_then_enter_requests (withCallbacks noProps)
              (initialState (withCallbacks noProps)) ["a"; "an"] "ann"
              eq_refl eq_refl) as (Hreq & _ & Hopen & _);
    [discriminate|].
  split; [exact Hreq | exact Hopen].
Defined.

(** ** What each event can change *)

Lemma log_onScopeMenuClick p st :
  log (onScopeMenuClick p) st
  = if onScopeMenuClick_ p then [Call CallScopeMenuClick] else [].
Proof.
  unfold onScopeMenuClick, log, bind, setOpened, modify, call.
  destruct (onScopeMenuClick_ p); reflexivity.
Qed.

Lemma log_onScopeSelect p st v :
  log (onScopeSelect p v) st
  = if onScopeSelect_ p then [Call (CallScopeSelect v)] else [].
Proof.
  unfold onScopeSelect, log, bind, setTargetScope, modify, call.
  destruct (onScopeSelect_ p); reflexivity.
Qed.

Lemma pressDown_open p st :
  opened p st = true ->
  exec (pressDown p) st = with_focusFirstCandidate true st
  /\ log (pressDown p) st = [SetTimeout ClearFocusFirstCandidate 10].
Proof.
  intros Hopen. unfold pressDown, exec, log.
  cbn [searchProps ls_onPressDown opt0].
  unfold onFocusFirstCandidate. rewrite Hopen. split; reflexivity.
Qed.

(** The state and the log of one event, case by case. *)
Lemma exec_step p st ev :
  exec (step p ev) st
  = match ev with
    | SearchTextChange text =>
        with_searchText
          (snd (useControlledValue (searchText_ p) (st_searchText st)) text) st
    | Submit =>
        with_opened (snd (useControlledValue (opened_ p) (st_opened st)) true) st
    | PressDown =>
        if opened p st then with_focusFirstCandidate true st
        else with_opened
               (snd (useControlledValue (opened_ p) (st_opened st)) true) st
    | Select (Some entry) =>
        mkState
          (snd (useControlledValue (selected_ p) (st_selected st)) (Some entry))
          (snd (useControlledValue (opened_ p) (st_opened st)) false)
          (st_searchText st) (st_targetScope st) (st_focusFirstCandidate st)
    | Select None =>
        with_opened (snd (useControlledValue (opened_ p) (st_opened st)) false) st
    | ResetSelection =>
        mkState
          (snd (useControlledValue (selected_ p) (st_selected st)) None)
          (snd (useControlledValue (opened_ p) (st_opened st)) true)
          (snd (useControlledValue (searchText_ p) (st_searchText st)) "")
          (st_targetScope st) (st_focusFirstCandidate st)
    | ScopeSelect value =>
        with_targetScope
          (snd (useControlledValue (targetScope_ p) (st_targetScope st)) value)
          st
    | ScopeMenuClick =>
        with_opened (snd (useControlledValue (opened_ p) (st_opened st)) false) st
    | Blur => st
    | Timer dom ClearFocusFirstCandidate => with_focusFirstCandidate false st
    | Timer dom BlurCheck =>
        if isFocusedInComponent dom then st
        else with_opened
               (snd (useControlledValue (opened_ p) (st_opened st)) false) st
    | Timer dom _ => st
    end.
Proof.
  destruct ev as [text| | |[entry|]| |value| | |dom task]; cbn [step].
  - apply exec_searchChange.
  - apply exec_submit.
  - destruct (opened p st) eqn:Hopen.
    + apply pressDown_open. exact Hopen.
    + destruct (pressDown_closed p st Hopen) as [-> _]. apply exec_submit.
  - apply exec_select_entry.
  - apply exec_select_null.
  - apply exec_resetSelection.
  - apply exec_onScopeSelect.
  - apply exec_onScopeMenuClick.
  - reflexivity.
  - destruct task.
    + unfold runTimer. destruct (inputEl dom); reflexivity.
    + unfold runTimer. destruct (pillElem dom); reflexivity.
    + reflexivity.
    + unfold runTimer. destruct (activeInSearch dom); reflexivity.
    + destruct (isFocusedInComponent dom) eqn:Hfocus.
      * apply exec_BlurCheck_inside. exact Hfocus.
      * apply exec_BlurCheck_outside. exact Hfocus.
Qed.

Lemma calls_step p st ev :
  calls (log (step p ev) st)
  = match ev with
    | SearchTextChange text =>
        if onSearchTextChange_ p then [CallSearchTextChange text] else []
    | Submit =>
        if onLookupRequest_ p then [CallLookupRequest (searchText p st)] else []
    | PressDown =>
        if opened p st then []
        else if onLookupRequest_ p then [CallLookupRequest (searchText p st)]
             else []
    | Select entry =>
        match entry with
        | Some e => if onSelect_ p then [CallSelect (Some e)] else []
        | None => []
        end
        ++ (if onComplete p then [CallComplete None] else [])
    | ResetSelection =>
        (if onSelect_ p then [CallSelect None] else [])
        ++ (if onSearchTextChange_ p then [CallSearchTextChange ""] else [])
        ++ (if onLookupRequest_ p then [CallLookupRequest ""] else [])
    | ScopeSelect value =>
        if onScopeSelect_ p then [CallScopeSelect value] else []
    | ScopeMenuClick => if onScopeMenuClick_ p then [CallScopeMenuClick] else []
    | Blur => []
    | Timer dom BlurCheck =>
        if isFocusedInComponent dom then []
        else (if onBlur_ p then [CallBlur] else [])
             ++ (if onComplete p then [CallComplete (Some true)] else [])
    | Timer dom _ => []
    end.
Proof.
  destruct ev as [text| | |entry| |value| | |dom task]; cbn [step].
  - rewrite log_searchChange. destruct (onSearchTextChange_ p); reflexivity.
  - rewrite log_submit. destruct (onLookupRequest_ p); reflexivity.
  - destruct (opened p st) eqn:Hopen.
    + destruct (pressDown_open p st Hopen) as [_ ->]. reflexivity.
    + destruct (pressDown_closed p st Hopen) as [_ ->]. rewrite log_submit.
      destruct (onLookupRequest_ p); reflexivity.
  - rewrite log_select.
    destruct entry, (onSelect_ p), (onComplete p); reflexivity.
  - unfold resetSelection. rewrite log_resetSelection.
    destruct (onSelect_ p), (onSearchTextChange_ p), (onLookupRequest_ p);
      reflexivity.
  - rewrite log_onScopeSelect. destruct (onScopeSelect_ p); reflexivity.
  - rewrite log_onScopeMenuClick. destruct (onScopeMenuClick_ p); reflexivity.
  - reflexivity.
  - destruct task.
    + unfold runTimer, log. destruct (inputEl dom); reflexivity.
    + unfold runTimer, log. destruct (pillElem dom); reflexivity.
    + reflexivity.
    + unfold runTimer, log. destruct (activeInSearch dom); reflexivity.
    + destruct (isFocusedInComponent dom) eqn:Hfocus.
      * destruct (exec_BlurCheck_inside p dom st Hfocus) as [_ ->]. reflexivity.
      * destruct (exec_BlurCheck_outside p dom st Hfocus) as [_ ->].
        destruct (onBlur_ p), (onComplete p); reflexivity.
Qed.

Ltac break_matches :=
  repeat match goal with
    | |- context [match ?x with _ => _ end] => destruct x eqn:?
    end.

(** Whatever the props and the state, one event of the orchestrator changes
    [selected] only if it is a selection of an entry or a reset, changes
    [searchText] only if it is a change of the text or a reset, changes
    [targetScope] only if it is the choice of a scope, opens a closed list
    only if it is a submit, a Down key or a reset, and closes an open list
    only if it is a selection, a click on the scope menu or the boundary
    check of a blur. *)
Theorem step_frame (p : LookupProps) (st : LookupState) (ev : LookupEvent) :
  let st1 := exec (step p ev) st in
  (selected p st1 <> selected p st ->
     ev = ResetSelection \/ exists entry, ev = Select (Some entry))
  /\ (searchText p st1 <> searchText p st ->
     ev = ResetSelection \/ exists text, ev = SearchTextChange text)
  /\ (targetScope p st1 <> targetScope p st ->
     exists value, ev = ScopeSelect value)
  /\ (opened p st = false -> opened p st1 = true ->
     ev = Submit \/ ev = PressDown \/ ev = ResetSelection)
  /\ (opened p st = true -> opened p st1 = false ->
     (exists entry, ev = Select entry) \/ ev = ScopeMenuClick
     \/ exists dom, ev = Timer dom BlurCheck).
Proof.
  cbv zeta. rewrite exec_step.
  unfold selected, opened, searchText, targetScope, isFocusedInComponent.
  destruct st as [sel op text scope flag].
  destruct (selected_ p), (opened_ p), (searchText_ p), (targetScope_ p);
    cbn [useControlledValue fst snd];
    destruct ev as [text'| | |[entry|]| |value| | |dom []];
    cbn; break_matches; cbn;
    (repeat split; intros; try congruence; eauto 6).
Qed.

Lemma step_frame_witness :
  let p := withCallbacks noProps in
  let st := mkState None false "" "" false in
  opened p st = false
  /\ opened p (exec (step p Submit) st) = true
  /\ (Submit = Submit \/ Submit = PressDown \/ Submit = ResetSelection).
Proof.
  cbv zeta.
  destruct (step_frame (withCallbacks noProps)
              (mkState None false "" "" false) Submit)
    as (_ & _ & _ & Hopen & _).
  split; [reflexivity | split; [reflexivity | apply Hopen; reflexivity]].
Defined.

(** ** Leaving the candidate list without a choice *)

Lemma listKeyDown_escape p items target e st :
  keyCode e = 27 ->
  exec (listKeyDown p items target e) st = exec (select p None) st
  /\ log (listKeyDown p items target e) st
     = [PreventDefault; StopPropagation] ++ log (select p None) st.
Proof.
  destruct e as [code text]; cbn [keyCode]. intros ->.
  unfold listKeyDown, select, CandidateList.onKeyDown, exec, log.
  cbn [keyCode Nat.eqb orb]. split; reflexivity.
Qed.

(** Escape on a row of the candidate list is [select(null)]: it closes the
    list of a widget that owns [opened], keeps the selection and the search
    text, never calls [onSelect], and schedules (10ms) the return of the
    focus to the search input, which happens if the input is there when the
    timer fires. *)
Theorem list_escape_cancels (p : LookupProps) (st : LookupState)
    (items : list ListItem) (target : nat) (e : KeyboardEvent) :
  keyCode e = 27 ->
  let st1 := exec (listKeyDown p items target e) st in
  let l := log (listKeyDown p items target e) st in
  (opened_ p = None -> opened p st1 = false)
  /\ selected p st1 = selected p st
  /\ searchText p st1 = searchText p st
  /\ selects l = []
  /\ focusedRow l target = target
  /\ timeouts l = [(FocusSearchInput, 10)]
  /\ forall dom,
       focuses (log (runTimers p dom (timeouts l)) st1)
       = (if inputEl dom then [SearchInput] else [])
       /\ exec (runTimers p dom (timeouts l)) st1 = st1.
Proof.
  intros Hesc. cbv zeta.
  destruct (listKeyDown_escape p items target e st Hesc) as [-> ->].
  rewrite exec_select_null, log_select.
  unfold opened, selected, searchText.
  destruct (opened_ p), (onComplete p); cbn;
    (repeat split; try congruence);
    destruct dom as [inEl inList inSearch [|] hasPill]; reflexivity.
Qed.

Lemma list_escape_cancels_witness :
  let p := withCallbacks noProps in
  let st := mkState None true "ann" "" false in
  let items := [CandidateItem None; CandidateItem None] in
  opened p (exec (listKeyDown p items 0 (escapeKey "")) st) = false
  /\ selects (log (listKeyDown p items 0 (escapeKey "")) st) = [].
Proof.
  cbv zeta.
  destruct (list_escape_cancels (withCallbacks noProps)
              (mkState None true "ann" "" false)
              [CandidateItem None; CandidateItem None] 0 (escapeKey "")
              eq_refl) as (Hopen & _ & _ & Hsel & _).
  split; [apply Hopen; reflexivity | exact Hsel].
Defined.

(** ** Selecting, then removing the selection *)

(** In a widget that owns [selected], [opened] and [searchText]: after
    [select(e)] the tree shows the selection display for [e], and neither
    the search bar nor the candidate list; after a [resetSelection] on top
    of it the tree shows the search bar again, with an empty search text,
    and the candidate list is open, whatever the state was at first. *)
Theorem select_then_reset (p : LookupProps) (st : LookupState) (e : Entry) :
  selected_ p = None ->
  opened_ p = None ->
  searchText_ p = None ->
  let st1 := exec (select p (Some e)) st in
  let st2 := exec (resetSelection p) st1 in
  (selected p st1 = Some e
   /\ contains isLookupSelection (Lookup p st1) = true
   /\ contains isLookupSearch (Lookup p st1) = false
   /\ contains isLookupCandidateList (Lookup p st1) = false)
  /\ (selected p st2 = None
      /\ searchText p st2 = ""
      /\ contains isLookupSelection (Lookup p st2) = false
      /\ contains isLookupSearch (Lookup p st2) = true
      /\ contains isLookupCandidateList (Lookup p st2) = true).
Proof.
  intros Hsel Hopen Htext. cbv zeta.
  rewrite !contains_Lookup by reflexivity.
  rewrite exec_resetSelection, exec_select_entry.
  unfold selected, opened, searchText. rewrite Hsel, Hopen, Htext. cbn.
  repeat split.
Qed.

Lemma select_then_reset_witness :
  let p := withCallbacks noProps in
  let st := mkState None true "x" "" false in
  selected p (exec (select p (Some entryX)) st) = Some entryX
  /\ contains isLookupCandidateList
       (Lookup p (exec (resetSelection p) (exec (select p (Some entryX)) st)))
     = true.
Proof.
  cbv zeta.
  destruct (select_then_reset (withCallbacks noProps)
              (mkState None true "x" "" false) entryX
              eq_refl eq_refl eq_refl)
    as ((Hsel & _) & (_ & _ & _ & _ & Hlist)).
  split; [exact Hsel | exact Hlist].
Defined.

(** ** Keys on the pill *)

(** On the pill of the selection display, Backspace and Delete are
    [resetSelection] (after [preventDefault] and [stopPropagation]); every
    other key does nothing at all: no state change, no callback, no default
    prevented.  A click on the pill only focuses it: it changes no state and
    calls no callback. *)
Theorem pill_keys (p : LookupProps) (st : LookupState) (e : KeyboardEvent) :
  selected p st <> None ->
  ((keyCode e = 8 \/ keyCode e = 46) ->
     exec (pillKeyDown p e) st = exec (resetSelection p) st
     /\ log (pillKeyDown p e) st
        = [PreventDefault; StopPropagation] ++ log (resetSelection p) st)
  /\ (keyCode e <> 8 -> keyCode e <> 46 ->
     exec (pillKeyDown p e) st = st /\ log (pillKeyDown p e) st = [])
  /\ (exec Selection.onPillClick st = st
      /\ calls (log Selection.onPillClick st) = []
      /\ focuses (log Selection.onPillClick st) = [Pill]).
Proof.
  intros Hsel. unfold pillKeyDown, exec, log.
  destruct (selected p st) as [entry|]; [clear Hsel | congruence].
  unfold Selection.onKeyDown. split; [|split].
  - intros [-> | ->]; cbn [Nat.eqb orb]; split; reflexivity.
  - intros H8 H46.
    destruct (Nat.eqb_spec (keyCode e) 8) as [|_]; [congruence|].
    destruct (Nat.eqb_spec (keyCode e) 46) as [|_]; [congruence|].
    cbn [orb]. split; reflexivity.
  - destruct st. repeat split.
Qed.

Lemma pill_keys_witness :
  let p := withCallbacks noProps in
  let st := mkState (Some entryX) false "x" "" false in
  selected p (exec (pillKeyDown p backspaceKey) st) = None
  /\ log (pillKeyDown p (enterKey "")) st = [].
Proof.
  cbv zeta.
  destruct (pill_keys (withCallbacks noProps)
              (mkState (Some entryX) false "x" "" false) backspaceKey)
    as [Hreset _]; [discriminate|].
  destruct (Hreset (or_introl eq_refl)) as [Hexec _].
  destruct (pill_keys (withCallbacks noProps)
              (mkState (Some entryX) false "x" "" false) (enterKey ""))
    as [_ Hother]; [discriminate|].
  destruct Hother as [Hkeys _].
  destruct Hkeys as [_ Hlog]; [discriminate | discriminate |].
  split; [rewrite Hexec; reflexivity | exact Hlog].
Defined.

(** ** The two checks of a blur in the search bar *)

(** A blur in the search bar reaches the caller only through two deferred
    checks: the search bar waits 10ms and hands the blur to the orchestrator
    if the focus is outside the search bar; the orchestrator waits 500ms and
    closes the list and calls [onBlur] and [onComplete(true)] if the focus is
    outside the widget and its candidate list.  If the first check finds the
    focus inside the search bar nothing is scheduled and nothing ever
    happens; before the second check no state has changed and no callback
    has been called. *)
Theorem search_blur_chain (p : LookupProps) (st : LookupState)
    (first second : Dom) :
  let check1 := thenTimers p first onInputBlur in
  let check2 := thenTimers p second check1 in
  exec check1 st = st
  /\ calls (log check1 st) = []
  /\ timeouts (log onInputBlur st) = [(SearchBlurCheck, 10)]
  /\ timeouts (log check1 st)
     = (if activeInSearch first then [] else [(BlurCheck, 500)])
  /\ (activeInSearch first = true ->
        exec check2 st = st /\ calls (log check2 st) = [])
  /\ (activeInSearch first = false -> isFocusedInComponent second = true ->
        exec check2 st = st /\ calls (log check2 st) = [])
  /\ (activeInSearch first = false -> isFocusedInComponent second = false ->
        (opened_ p = None -> opened p (exec check2 st) = false)
        /\ calls (log check2 st)
           = (if onBlur_ p then [CallBlur] else [])
             ++ (if onComplete p then [CallComplete (Some true)] else [])).
Proof.
  cbv zeta. unfold thenTimers, onInputBlur, isFocusedInComponent, opened.
  destruct first as [a1 b1 [|] d1 e1], second as [[|] [|] c2 d2 e2];
    unfold exec, log, runTimers, runTimer, isFocusedInComponent, onBlur,
      setTimeout, effect, bind, ret, timeouts, calls, setOpened, modify, call;
    cbn [activeInSearch activeInEl activeInCandidateList negb orb fst snd
         flat_map app filter isSetTimeout];
    destruct (opened_ p), (onBlur_ p), (onComplete p); cbn;
    repeat split; intros; congruence.
Qed.

Lemma search_blur_chain_witness :
  let p := withCallbacks noProps in
  let st := mkState None true "ann" "" false in
  let outside := mkDom false false false true false in
  opened p (exec (thenTimers p outside (thenTimers p outside onInputBlur)) st)
  = false
  /\ calls (log (thenTimers p outside (thenTimers p outside onInputBlur)) st)
     = [CallBlur; CallComplete (Some true)].
Proof.
  cbv zeta.
  destruct (search_blur_chain (withCallbacks noProps)
              (mkState None true "ann" "" false)
              (mkDom false false false true false)
              (mkDom false false false true false))
    as (_ & _ & _ & _ & _ & _ & Hout).
  destruct (Hout eq_refl eq_refl) as [Hopen Hcalls].
  split; [apply Hopen; reflexivity | exact Hcalls].
Defined.

(** ** The search icon *)

(** A click on the search icon of a disabled search bar does nothing; of an
    enabled one it focuses the input and submits: the orchestrator requests
    the candidates for the current search text and opens the list it owns. *)
Theorem search_icon_click (p : LookupProps) (st : LookupState) :
  (disabled p = true ->
     exec (searchIconClicked p) st = st /\ log (searchIconClicked p) st = [])
  /\ (disabled p = false ->
     exec (searchIconClicked p) st = exec (submit p) st
     /\ log (searchIconClicked p) st = Focus SearchInput :: log (submit p) st
     /\ lookupRequests (log (searchIconClicked p) st)
        = (if onLookupRequest_ p then [searchText p st] else [])
     /\ (opened_ p = None -> opened p (exec (searchIconClicked p) st) = true)).
Proof.
  unfold searchIconClicked, searchIconClick. cbn [searchProps ls_disabled].
  split; intros Hdis; rewrite Hdis.
  - split; reflexivity.
  - assert (Hexec : exec (fun st0 => onLookupIconClick (searchProps p st0) st0) st
                    = exec (submit p) st) by reflexivity.
    assert (Hlog : log (fun st0 => onLookupIconClick (searchProps p st0) st0) st
                   = Focus SearchInput :: log (submit p) st) by reflexivity.
    rewrite Hexec, Hlog, exec_submit, log_submit.
    unfold opened. destruct (opened_ p), (onLookupRequest_ p); cbn;
      repeat split; intros; congruence.
Qed.

Lemma search_icon_click_witness :
  let p := withCallbacks noProps in
  let st := mkState None false "ann" "" false in
  lookupRequests (log (searchIconClicked p) st) = ["ann"]
  /\ opened p (exec (searchIconClicked p) st) = true.
Proof.
  cbv zeta.
  destruct (search_icon_click (withCallbacks noProps)
              (mkState None false "ann" "" false)) as [_ Hen].
  destruct (Hen eq_refl) as (_ & _ & Hreq & Hopen).
  split; [exact Hreq | apply Hopen; reflexivity].
Defined.

(** ** The scope selector *)

Lemma contains_searchInput_selector :
  contains (isTag "DropdownButton") searchInput = false.
Proof. reflexivity. Qed.

(** The search bar on its own renders the scope selector exactly when
    [scopes] is given, be it the empty list, with one menu item per scope
    after the icon of the active scope.  [Lookup] keeps [scopes] to itself:
    whatever its props and state, the search bar it renders gets no [scopes]
    and shows no scope selector. *)
Theorem scope_selector_rendering :
  (forall props,
     contains (isTag "DropdownButton") (LookupSearch props) = true
     <-> ls_scopes props <> None)
  /\ (forall props scopes,
        ls_scopes props = Some scopes ->
        exists icon,
          LookupSearch props
          = Host "div"
              [Host "div"
                 [Host "DropdownButton"
                    (Host "Icon" [Text icon]
                     :: map (fun scope : LookupScope =>
                               Host "DropdownMenuItem"
                                    [Text (LookupScope.label scope)]) scopes)];
               searchInput]
          /\ icon <> "")
  /\ (forall p st, rendersScopeSelector (Lookup p st) = false).
Proof.
  split; [|split].
  - intros props. unfold LookupSearch.
    destruct (ls_scopes props) as [scopes|]; cbn; split; congruence.
  - intros props scopes Hs. unfold LookupSearch. rewrite Hs.
    eexists. split; [reflexivity|].
    unfold scopeIcon.
    destruct (scopeTarget scopes (ls_targetScope props)) as [scope|];
      [|discriminate].
    destruct (LookupScope.icon scope) eqn:Hicon; cbn; [discriminate|].
    discriminate.
  - intros p st. unfold rendersScopeSelector.
    rewrite contains_Lookup by reflexivity.
    destruct (selected p st), (opened p st); reflexivity.
Qed.

Lemma scope_selector_rendering_witness :
  let account := LookupScope.mk "Account" "account" "" in
  let props := mkSearchProps false (Some "") (Some [account]) (Some "lead")
                             false None None None None None None None None in
  contains (isTag "DropdownButton") (LookupSearch props) = true
  /\ rendersScopeSelector (Lookup noProps (initialState noProps)) = false.
Proof.
  cbv zeta.
  destruct scope_selector_rendering as (Hiff & _ & Hnever).
  split; [apply Hiff; discriminate | apply Hnever].
Defined.

(** ** The rows of the candidate list *)

Lemma renderItems_repeat props :
  renderItems props
  = repeat (CandidateItem None) (List.length (shownEntries props))
    ++ (if cl_loading props then [LoadingItem] else []).
Proof.
  unfold renderItems, shownEntries. rewrite map_const. reflexivity.
Qed.

(** The rows [Lookup] shows in its list: one candidate row for each entry of
    [data] that [lookupFilter] accepts for the current search text and scope,
    in the order of [data], all of them when no filter is given, none when
    the filter accepts nothing or [data] is left out; the loading row comes
    after them, and only while [loading] is set. *)
Theorem candidate_rows (p : LookupProps) (st : LookupState) :
  let props := candidateListProps p st in
  renderItems props
  = repeat (CandidateItem None) (List.length (shownEntries props))
    ++ (if loading p then [LoadingItem] else [])
  /\ (lookupFilter p = None -> shownEntries props = nullish (data p) [])
  /\ (forall f, lookupFilter p = Some f ->
        shownEntries props
        = filter (fun entry => f entry (searchText p st) (targetScope p st))
                 (nullish (data p) []))
  /\ (forall f, lookupFilter p = Some f ->
        (forall entry text scope, f entry text scope = false) ->
        renderItems props = (if loading p then [LoadingItem] else []))
  /\ (data p = None ->
        renderItems props = (if loading p then [LoadingItem] else [])).
Proof.
  cbv zeta. rewrite renderItems_repeat.
  unfold shownEntries, candidateListProps. cbn [cl_filter cl_data cl_loading].
  split; [reflexivity|]. split; [|split; [|split]].
  - intros ->. cbn. unfold trueFilter.
    induction (nullish (data p) []) as [|entry rest IH]; cbn; congruence.
  - intros f ->. reflexivity.
  - intros f -> Hnone. cbn [nullish].
    assert (Hnil : filter (fun entry => f entry (searchText p st)
                                          (targetScope p st))
                          (nullish (data p) []) = []).
    { induction (nullish (data p) []) as [|entry rest IH]; cbn;
        [reflexivity | rewrite Hnone; exact IH]. }
    rewrite Hnil. reflexivity.
  - intros ->. cbn. reflexivity.
Qed.

Lemma candidate_rows_witness :
  let p := mkProps None None (Some true) None None None None None
                   None false None false false true
                   (Some [entryX; entryY]) (Some (fun _ _ _ => false))
                   false false None
                   false false false false false false false false in
  renderItems (candidateListProps p (initialState p)) = [LoadingItem].
Proof.
  cbv zeta.
  match goal with
  | |- renderItems (candidateListProps ?p ?st) = _ =>
      destruct (candidate_rows p st) as (_ & _ & _ & Hnone & _);
      apply (Hnone (fun _ _ _ => false) eq_refl)
  end.
  reflexivity.
Defined.

Lemma scan_unfocusable chain :
  (forall itemEl, In itemEl chain -> focusable itemEl = false) ->
  scan chain = None.
Proof.
  induction chain as [|itemEl rest IH]; intros Hall; cbn [scan].
  - reflexivity.
  - rewrite (Hall itemEl) by (left; reflexivity).
    rewrite IH by (intros x Hx; apply Hall; right; exact Hx). reflexivity.
Qed.

Lemma scan_next_rendered n : forall i tail,
  (forall itemEl, In itemEl tail -> focusable itemEl = false) ->
  scan (skipn (S i) (repeat (CandidateItem None) n ++ tail))
  = if (S i <? n)%nat then Some 0 else None.
Proof.
  induction n as [|n IH]; intros i tail Htail.
  - cbn [repeat app]. apply scan_unfocusable.
    intros x Hx. apply Htail.
    rewrite <- (firstn_skipn (S i) tail). apply in_or_app. right. exact Hx.
  - cbn [repeat app skipn]. destruct i as [|i].
    + cbn [skipn]. destruct n as [|n]; cbn [repeat app].
      * apply scan_unfocusable. exact Htail.
      * reflexivity.
    + rewrite IH by exact Htail. reflexivity.
Qed.

Lemma firstn_rendered n : forall i tail,
  i <= n ->
  firstn i (repeat (CandidateItem None) n ++ tail)
  = repeat (CandidateItem None) i.
Proof.
  induction n as [|n IH]; intros [|i] tail Hi; cbn; try reflexivity; try lia.
  rewrite IH by lia. reflexivity.
Qed.

(** On the rows [Lookup] renders, Down on candidate row [i] moves the focus
    to row [i + 1] when that is a candidate row and leaves it on [i] when
    [i] is the last one (the loading row never takes the focus); Up moves it
    to row [i - 1], and leaves it on the first row. *)
Theorem rendered_rows_navigation (p : LookupProps) (st : LookupState)
    (i : nat) (down up : KeyboardEvent) :
  let items := renderItems (candidateListProps p st) in
  let n := List.length (shownEntries (candidateListProps p st)) in
  i < n ->
  keyCode down = 40 ->
  keyCode up = 38 ->
  focusedRow (log (listKeyDown p items i down) st) i
  = (if (S i <? n)%nat then S i else i)
  /\ focusedRow (log (listKeyDown p items i up) st) i = pred i.
Proof.
  cbv zeta. intros Hi Hdown Hup.
  destruct (log_listKeyDown_down p (renderItems (candidateListProps p st))
              i down st Hdown) as [-> _].
  destruct (log_listKeyDown_up p (renderItems (candidateListProps p st))
              i up st Hup) as [-> _].
  rewrite renderItems_repeat. unfold nextSiblings, previousSiblings.
  assert (Htail : forall itemEl,
            In itemEl (if cl_loading (candidateListProps p st)
                       then [LoadingItem] else []) ->
            focusable itemEl = false).
  { destruct (cl_loading (candidateListProps p st)); intros x Hx;
      [destruct Hx as [<-|[]]; reflexivity | destruct Hx]. }
  rewrite scan_next_rendered by exact Htail.
  rewrite firstn_rendered by lia. rewrite rev_repeat.
  split.
  - destruct (S i <? _)%nat; cbn; [f_equal; lia | reflexivity].
  - destruct i as [|i]; cbn; [reflexivity | f_equal; lia].
Qed.

Lemma rendered_rows_navigation_witness :
  let p := mkProps None None (Some true) None None None None None
                   None false None false false true
                   (Some [entryX; entryY]) None
                   false false None
                   false false false false false false false false in
  let st := initialState p in
  let items := renderItems (candidateListProps p st) in
  focusedRow (log (listKeyDown p items 1 downKey) st) 1 = 1
  /\ focusedRow (log (listKeyDown p items 1 upKey) st) 1 = 0.
Proof.
  cbv zeta.
  match goal with
  | |- focusedRow (log (listKeyDown ?p _ _ _) ?st) _ = _ /\ _ =>
      destruct (rendered_rows_navigation p st 1 downKey upKey) as [Hd Hu];
      [cbn; lia | reflexivity | reflexivity |]
  end.
  split; [rewrite Hd | rewrite Hu]; reflexivity.
Defined.

(** ** Moving the focus into the list *)

Lemma anchorsFrom_first items : forall row,
  match nth_error (anchorsFrom items row) 0 with
  | Some r =>
      row <= r
      /\ (exists a, nth_error items (r - row) = Some (CandidateItem a))
      /\ forall k, k < r - row -> nth_error items k = Some LoadingItem
  | None => forall k a, nth_error items k <> Some (CandidateItem a)
  end.
Proof.
  induction items as [|itemEl rest IH]; intros row; cbn [anchorsFrom].
  - cbn. intros [|k] a; discriminate.
  - destruct itemEl as [aria|].
    + cbn [nth_error]. split; [lia|]. rewrite Nat.sub_diag.
      split; [exists aria; reflexivity | intros k Hk; lia].
    + specialize (IH (S row)).
      destruct (nth_error (anchorsFrom rest (S row)) 0) as [r|].
      * destruct IH as (Hle & [a Ha] & Hbefore).
        replace (r - row) with (S (r - S row)) by lia.
        split; [lia|]. split; [exists a; exact Ha|].
        intros [|k] Hk; [reflexivity | apply Hbefore; lia].
      * intros [|k] a; [discriminate | apply IH].
Qed.

(** [focusToTargetItemEl(0)] focuses the first candidate row of the list,
    whether or not it is marked disabled (only the arrow keys look at
    [ariaDisabled]); it does nothing when the list holds no candidate row or
    is no longer mounted; it never changes the state. *)
Theorem focus_first_row (st : LookupState) (items : list ListItem) :
  (forall r,
     log (focusToTargetItemEl (Some items) 0) st = [Focus (CandidateAnchor r)]
     -> (exists a, nth_error items r = Some (CandidateItem a))
        /\ forall k, k < r -> nth_error items k = Some LoadingItem)
  /\ (log (focusToTargetItemEl (Some items) 0) st = []
      <-> forall k a, nth_error items k <> Some (CandidateItem a))
  /\ (log (focusToTargetItemEl (Some items) 0) st = []
      \/ exists r,
           log (focusToTargetItemEl (Some items) 0) st
           = [Focus (CandidateAnchor r)])
  /\ exec (focusToTargetItemEl (Some items) 0) st = st
  /\ (forall index, log (focusToTargetItemEl None index) st = []).
Proof.
  unfold focusToTargetItemEl, anchors, log, exec.
  pose proof (anchorsFrom_first items 0) as Hfirst.
  destruct (nth_error (anchorsFrom items 0) 0) as [r0|]; cbn.
  - destruct Hfirst as (_ & [a Ha] & Hbefore). rewrite Nat.sub_0_r in *.
    split; [|split; [|split; [|split]]].
    + intros r [= <-]. split; [exists a; exact Ha | exact Hbefore].
    + split; [discriminate|]. intros Hnone. exfalso. exact (Hnone r0 a Ha).
    + right. exists r0. reflexivity.
    + reflexivity.
    + reflexivity.
  - split; [|split; [|split; [|split]]].
    + discriminate.
    + split; [intros _; exact Hfirst | reflexivity].
    + left. reflexivity.
    + reflexivity.
    + reflexivity.
Qed.

Lemma focus_first_row_witness :
  let st := mkState None true "" "" true in
  let items := [LoadingItem; CandidateItem (Some "true"); CandidateItem None] in
  enabled items 1 = false
  /\ exists a, nth_error items 1 = Some (CandidateItem a).
Proof.
  cbv zeta. split; [reflexivity|].
  destruct (focus_first_row (mkState None true "" "" true)
              [LoadingItem; CandidateItem (Some "true"); CandidateItem None])
    as (Hfocus & _).
  destruct (Hfocus 1 eq_refl) as [Hrow _]. exact Hrow.
Defined.

(** Down on an open list, seen from the candidate list, whose effect runs
    only after a render in which [focus] has changed.  If the flag was not
    yet set, the next render carries [focus = true], the effect runs and the
    focus goes to the first row when at least one entry is shown, nowhere
    when none is; if the flag was still set from a Down just before, [focus]
    does not change, the effect does not run and no focus moves.  Once the
    reset timer has fired the list is rendered with [focus = false] and the
    effect, run for that change, does nothing. *)
Theorem pressDown_focuses_first_row (p : LookupProps) (st : LookupState) :
  opened p st = true ->
  let props0 := candidateListProps p st in
  let st1 := exec (pressDown p) st in
  let props1 := candidateListProps p st1 in
  cl_focus props1 = true
  /\ shownEntries props1 = shownEntries props0
  /\ focuses (log (focusEffect (Some (cl_focus props0)) props1
                     (Some (renderItems props1))) st1)
     = (if focusFirstCandidate st then []
        else match shownEntries props1 with
             | [] => []
             | _ :: _ => [CandidateAnchor 0]
             end)
  /\ forall dom,
       let st2 := exec (runTimers p dom (timeouts (log (pressDown p) st))) st1 in
       let props2 := candidateListProps p st2 in
       cl_focus props2 = false
       /\ log (focusEffect (Some (cl_focus props1)) props2
                 (Some (renderItems props2))) st2 = [].
Proof.
  intros Hopen. cbv zeta.
  destruct (pressDown_open p st Hopen) as [Hexec Hlog].
  rewrite Hexec, Hlog.
  assert (Hshown : shownEntries (candidateListProps p (with_focusFirstCandidate true st))
                   = shownEntries (candidateListProps p st)) by reflexivity.
  split; [reflexivity|]. split; [exact Hshown|]. split.
  - unfold focusEffect. cbn [candidateListProps cl_focus focusFirstCandidate
      with_focusFirstCandidate st_focusFirstCandidate].
    unfold focusFirstCandidate.
    destruct (st_focusFirstCandidate st); cbn [Bool.eqb negb]; [reflexivity|].
    rewrite renderItems_repeat, Hshown.
    destruct (shownEntries (candidateListProps p st)); cbn;
      [destruct (loading p)|]; reflexivity.
  - intros dom. split; reflexivity.
Qed.

Lemma pressDown_focuses_first_row_witness :
  let p := mkProps None None None None None None None None
                   None false None false false false
                   (Some [entryX; entryY]) None
                   false false None
                   false false false false false false false false in
  let st := mkState None true "" "" false in
  let st1 := exec (pressDown p) st in
  focuses (log (focusEffect (Some (cl_focus (candidateListProps p st)))
                  (candidateListProps p st1)
                  (Some (renderItems (candidateListProps p st1)))) st1)
  = [CandidateAnchor 0].
Proof.
  cbv zeta.
  match goal with
  | |- focuses (log (focusEffect _ (candidateListProps ?p _) _) _) = _ =>
      destruct (pressDown_focuses_first_row p (mkState None true "" "" false))
        as (_ & _ & Hfocus & _); [reflexivity|]
  end.
  exact Hfocus.
Defined.

(** ** The label and the error message *)

Lemma contains_tag_FormElement name label required error children :
  contains (isTag name) (FormElement label required error children)
  = String.eqb "div" name
    || (truthy (nullish label "")
        && (String.eqb "label" name || (required && String.eqb "abbr" name)))
    || existsb (contains (isTag name)) children
    || (truthy (nullish (errorMessage error) "") && String.eqb "span" name).
Proof.
  unfold FormElement.
  destruct (truthy (nullish label "")), required,
    (truthy (nullish (errorMessage error) ""));
    cbn [contains existsb app isTag andb orb];
    rewrite ?existsb_app; cbn [contains existsb isTag andb orb];
    destruct (String.eqb "div" name), (String.eqb "label" name),
      (String.eqb "abbr" name), (String.eqb "span" name),
      (existsb (contains (isTag name)) children); reflexivity.
Qed.

(** Around its body [Lookup] renders a label exactly when [label] is a
    non-empty string, the mark of a required field exactly when there is
    such a label and [required] is set (never without a label), and an error
    message exactly when [error] is a non-empty string or an object with a
    non-empty message: an error given as a boolean shows no message. *)
Theorem Lookup_label_and_error (p : LookupProps) (st : LookupState) :
  (contains (isTag "label") (Lookup p st) = true
   <-> exists text, label p = Some text /\ text <> "")
  /\ (contains (isTag "abbr") (Lookup p st) = true
      <-> (exists text, label p = Some text /\ text <> "") /\ required p = true)
  /\ (contains (isTag "span") (Lookup p st) = true
      <-> exists text,
            text <> ""
            /\ (error p = Some (ErrorString text)
                \/ error p = Some (ErrorObject text))).
Proof.
  unfold Lookup. rewrite !contains_tag_FormElement.
  cbn [existsb contains isTag String.eqb Ascii.eqb Bool.eqb orb andb].
  rewrite !existsb_app.
  assert (Hbody : forall name,
            existsb (contains (isTag name))
              (match selected p st with
               | Some entry => [ELookupSelection entry]
               | None => [ELookupSearch (searchProps p st)]
               end) = false)
    by (intros name; destruct (selected p st); reflexivity).
  assert (Hlist : forall name,
            existsb (contains (isTag name))
              (if opened p st
               then [ELookupCandidateList (candidateListProps p st)]
               else []) = false)
    by (intros name; destruct (opened p st); reflexivity).
  rewrite !Hbody, !Hlist. cbn [orb andb].
  rewrite ?andb_false_r, ?orb_false_r, ?andb_true_r. cbn [orb].
  split; [|split].
  - destruct (label p) as [[|c text]|]; cbn; split; intros H;
      try discriminate;
      try (destruct H as (t & Heq & Hne); congruence);
      try (eexists; split; [reflexivity | discriminate]).
  - destruct (label p) as [[|c text]|], (required p); cbn; split; intros H;
      try discriminate;
      try (destruct H as [(t & Heq & Hne) ?]; congruence);
      try (split; [eexists; split; [reflexivity | discriminate] | reflexivity]).
  - destruct (error p) as [[b|[|c text]|[|c text]]|]; cbn; split; intros H;
      try discriminate;
      try (destruct H as (t & Hne & [Heq|Heq]); congruence);
      try (eexists; split; [|left; reflexivity]; discriminate);
      try (eexists; split; [|right; reflexivity]; discriminate).
Qed.

(** ** The previous value of the text input *)

Lemma valueChanges_app l1 l2 :
  valueChanges (l1 ++ l2) = valueChanges l1 ++ valueChanges l2.
Proof. apply flat_map_app. Qed.

(** Along any run of change events of an [Input] given [onValueChange], the
    callback is called once per event, with the value of that event and, as
    previous value, the value of the event before: what the ref held at
    first (undefined at mount) for the first event. *)
Theorem Input_previous_value (props : InputProps) (values : list string) :
  in_onValueChange props = true ->
  forall prevValueRef,
    let calls := valueChanges (fst (Input_changes props prevValueRef values)) in
    List.length calls = List.length values
    /\ snd (Input_changes props prevValueRef values)
       = last (map Some values) prevValueRef
    /\ forall k value,
         nth_error values k = Some value ->
         nth_error calls k
         = Some (value, match k with
                        | 0 => prevValueRef
                        | S j => nth_error values j
                        end).
Proof.
  intros Hsupplied. cbv zeta.
  assert (Hshift : forall (l : list (option string)) a d,
            last (a :: l) d = last l a).
  { induction l as [|b l IHl]; intros a d; [reflexivity|].
    change (last (b :: l) d = last (b :: l) a).
    rewrite (IHl b d), (IHl b a). reflexivity. }
  induction values as [|v rest IH]; intros prev.
  - cbn. split; [reflexivity|]. split; [reflexivity|].
    intros [|k] value; discriminate.
  - cbn [Input_changes Input_onChange fst snd].
    rewrite Hsupplied, valueChanges_app.
    assert (Hhead : valueChanges
                      ((if in_onChange_ props then [InputChange v] else [])
                       ++ [InputValueChange v prev]) = [(v, prev)])
      by (destruct (in_onChange_ props); reflexivity).
    rewrite Hhead. destruct (IH (Some v)) as (Hlen & Hlast & Hnth).
    split; [cbn [app List.length]; rewrite Hlen; reflexivity|]. split.
    + rewrite Hlast. cbn [map]. rewrite Hshift. reflexivity.
    + intros [|k] value Hk.
      * cbn in Hk. injection Hk as <-. reflexivity.
      * cbn [nth_error app] in *. rewrite (Hnth k value Hk).
        destruct k; reflexivity.
Qed.

Lemma Input_previous_value_witness :
  let props := mkInputProps None false false true in
  valueChanges (fst (Input_changes props None ["a"; "an"; "ann"]))
  = [("a", None); ("an", Some "a"); ("ann", Some "an")].
Proof.
  cbv zeta.
  destruct (Input_previous_value (mkInputProps None false false true)
              ["a"; "an"; "ann"] eq_refl None) as (Hlen & _ & Hnth).
  cbv zeta in *.
  pose proof (Hnth 0 "a" eq_refl) as H0.
  pose proof (Hnth 1 "an" eq_refl) as H1.
  pose proof (Hnth 2 "ann" eq_refl) as H2.
  destruct (valueChanges
              (fst (Input_changes (mkInputProps None false false true) None
                      ["a"; "an"; "ann"]))) as [|c0 [|c1 [|c2 [|c3 l]]]];
    try discriminate Hlen.
  cbn in H0, H1, H2. congruence.
Defined.

(** ** Callbacks and state agree *)

Lemma In_Call_calls c l : In (Call c) l <-> In c (calls l).
Proof.
  unfold calls. rewrite in_flat_map. split.
  - intros Hin. exists (Call c). split; [exact Hin | left; reflexivity].
  - intros ([c'| | | |] & Hin & Hc); cbn in Hc; try contradiction.
    destruct Hc as [<-|[]]. exact Hin.
Qed.

(** In a widget that owns its four values, what an event tells the caller is
    what the widget holds after it: an entry passed to [onSelect] is the new
    [selected], a text passed to [onSearchTextChange] is the new
    [searchText], a scope passed to [onScopeSelect] is the new
    [targetScope], and after a call of [onLookupRequest] the list is open. *)
Theorem callbacks_tell_the_state (p : LookupProps) (st : LookupState)
    (ev : LookupEvent) :
  uncontrolled p ->
  let st1 := exec (step p ev) st in
  let l := log (step p ev) st in
  (forall entry, In (Call (CallSelect entry)) l -> selected p st1 = entry)
  /\ (forall text, In (Call (CallSearchTextChange text)) l ->
        searchText p st1 = text)
  /\ (forall value, In (Call (CallScopeSelect value)) l ->
        targetScope p st1 = value)
  /\ (forall text, In (Call (CallLookupRequest text)) l -> opened p st1 = true).
Proof.
  intros (Hsel & Hop & Htext & Hscope). cbv zeta.
  assert (Hcalls :
    (forall entry, In (CallSelect entry) (calls (log (step p ev) st)) ->
       selected p (exec (step p ev) st) = entry)
    /\ (forall text, In (CallSearchTextChange text)
                       (calls (log (step p ev) st)) ->
          searchText p (exec (step p ev) st) = text)
    /\ (forall value, In (CallScopeSelect value)
                        (calls (log (step p ev) st)) ->
          targetScope p (exec (step p ev) st) = value)
    /\ (forall text, In (CallLookupRequest text)
                       (calls (log (step p ev) st)) ->
          opened p (exec (step p ev) st) = true)).
  { rewrite exec_step, calls_step.
    unfold selected, opened, searchText, targetScope, isFocusedInComponent.
    rewrite Hsel, Hop, Htext, Hscope. cbn [useControlledValue fst snd].
    destruct st as [sel op text scope flag].
    destruct ev as [text'| | |[entry|]| |value| | |dom []];
      cbn; break_matches; cbn;
      (repeat split; intros; intuition (try congruence)). }
  destruct Hcalls as (Hc1 & Hc2 & Hc3 & Hc4).
  split; [|split; [|split]]; intros x Hin; apply In_Call_calls in Hin.
  - apply Hc1. exact Hin.
  - apply Hc2. exact Hin.
  - apply Hc3. exact Hin.
  - apply (Hc4 x). exact Hin.
Qed.

Lemma callbacks_tell_the_state_witness :
  let p := withCallbacks noProps in
  let st := mkState (Some entryX) false "x" "" false in
  selected p (exec (step p ResetSelection) st) = None
  /\ opened p (exec (step p ResetSelection) st) = true.
Proof.
  cbv zeta.
  destruct (callbacks_tell_the_state (withCallbacks noProps)
              (mkState (Some entryX) false "x" "" false) ResetSelection)
    as (Hsel & _ & _ & Hreq).
  - repeat split.
  - split.
    + apply Hsel. left. reflexivity.
    + apply (Hreq ""). right. right. left. reflexivity.
Defined.

(** Conversely, for a caller that listens to every callback, no value of a
    widget that owns its values changes behind its back: a change of
    [selected], [searchText] or [targetScope] comes with the call of
    [onSelect], [onSearchTextChange] or [onScopeSelect] on the new value, the
    opening of the list with a call of [onLookupRequest], and its closing
    with a call of [onComplete] or of [onScopeMenuClick]. *)
Theorem changes_are_notified (p : LookupProps) (st : LookupState)
    (ev : LookupEvent) :
  uncontrolled p ->
  listening p ->
  let st1 := exec (step p ev) st in
  let l := log (step p ev) st in
  (selected p st1 <> selected p st -> In (Call (CallSelect (selected p st1))) l)
  /\ (searchText p st1 <> searchText p st ->
        In (Call (CallSearchTextChange (searchText p st1))) l)
  /\ (targetScope p st1 <> targetScope p st ->
        In (Call (CallScopeSelect (targetScope p st1))) l)
  /\ (opened p st = false -> opened p st1 = true ->
        exists text, In (Call (CallLookupRequest text)) l)
  /\ (opened p st = true -> opened p st1 = false ->
        (exists cancel, In (Call (CallComplete cancel)) l)
        \/ In (Call CallScopeMenuClick) l).
Proof.
  intros (Hsel & Hop & Htext & Hscope) (H1 & H2 & H3 & H4 & H5 & H6 & H7).
  cbv zeta.
  assert (Hcalls :
    (selected p (exec (step p ev) st) <> selected p st ->
       In (CallSelect (selected p (exec (step p ev) st)))
          (calls (log (step p ev) st)))
    /\ (searchText p (exec (step p ev) st) <> searchText p st ->
          In (CallSearchTextChange (searchText p (exec (step p ev) st)))
             (calls (log (step p ev) st)))
    /\ (targetScope p (exec (step p ev) st) <> targetScope p st ->
          In (CallScopeSelect (targetScope p (exec (step p ev) st)))
             (calls (log (step p ev) st)))
    /\ (opened p st = false -> opened p (exec (step p ev) st) = true ->
          exists text, In (CallLookupRequest text) (calls (log (step p ev) st)))
    /\ (opened p st = true -> opened p (exec (step p ev) st) = false ->
          (exists cancel, In (CallComplete cancel) (calls (log (step p ev) st)))
          \/ In CallScopeMenuClick (calls (log (step p ev) st)))).
  { rewrite exec_step, calls_step.
    unfold selected, opened, searchText, targetScope, isFocusedInComponent.
    rewrite Hsel, Hop, Htext, Hscope, H1, H2, H3, H4, H5, H6, H7.
    cbn [useControlledValue fst snd].
    destruct st as [sel op text scope flag].
    destruct ev as [text'| | |[entry|]| |value| | |dom []];
      cbn; break_matches; cbn;
      (repeat split; intros; try congruence; eauto 8). }
  destruct Hcalls as (Hc1 & Hc2 & Hc3 & Hc4 & Hc5).
  split; [|split; [|split; [|split]]].
  - intros Hne. apply In_Call_calls. apply Hc1. exact Hne.
  - intros Hne. apply In_Call_calls. apply Hc2. exact Hne.
  - intros Hne. apply In_Call_calls. apply Hc3. exact Hne.
  - intros Hclosed Hopen. destruct (Hc4 Hclosed Hopen) as [text Hin].
    exists text. apply In_Call_calls. exact Hin.
  - intros Hopen Hclosed. destruct (Hc5 Hopen Hclosed) as [[c Hin]|Hin].
    + left. exists c. apply In_Call_calls. exact Hin.
    + right. apply In_Call_calls. exact Hin.
Qed.

Lemma changes_are_notified_witness :
  let p := withCallbacks noProps in
  let st := mkState None true "ann" "" false in
  In (Call (CallSelect (Some entryX))) (log (step p (Select (Some entryX))) st)
  /\ exists cancel,
       In (Call (CallComplete cancel)) (log (step p (Select (Some entryX))) st).
Proof.
  cbv zeta.
  destruct (changes_are_notified (withCallbacks noProps)
              (mkState None true "ann" "" false) (Select (Some entryX)))
    as (Hsel & _ & _ & _ & Hclose).
  - repeat split.
  - repeat split.
  - split.
    + apply Hsel. discriminate.
    + destruct (Hclose eq_refl eq_refl) as [Hc|Hm]; [exact Hc|].
      exfalso. vm_compute in Hm.
      destruct Hm as [Hm|[Hm|[Hm|[]]]]; discriminate Hm.
Defined.

(** ** Keys on a row *)

(** A key pressed on a row of the list does one thing only.  Enter selects
    the entry of the row, as a click does, and moves no focus; Escape is
    [select(null)]; any key other than Enter, Escape, Up and Down does
    nothing at all. *)
Theorem row_key_dispatch (p : LookupProps) (st : LookupState)
    (items : list ListItem) (entry : Entry) (target : nat)
    (e : KeyboardEvent) :
  (keyCode e = 13 ->
     exec (rowKeyDown p items entry target e) st
     = exec (select p (Some entry)) st
     /\ log (rowKeyDown p items entry target e) st
        = log (select p (Some entry)) st
     /\ log (CandidateList.onRowClick (candidateListProps p st) entry) st
        = log (select p (Some entry)) st)
  /\ (keyCode e = 27 ->
     exec (rowKeyDown p items entry target e) st = exec (select p None) st
     /\ selects (log (rowKeyDown p items entry target e) st) = [])
  /\ (keyCode e <> 13 -> keyCode e <> 27 -> keyCode e <> 38 ->
      keyCode e <> 40 ->
     exec (rowKeyDown p items entry target e) st = st
     /\ log (rowKeyDown p items entry target e) st = []).
Proof.
  destruct e as [code text]; cbn [keyCode].
  unfold rowKeyDown, CandidateList.onRowKeyDown, CandidateList.onKeyDown,
    CandidateList.onRowClick, exec, log.
  cbn [keyCode].
  split; [|split].
  - intros ->. cbn [Nat.eqb orb].
    unfold_handlers. break_props p. destruct st.
    break_ifs; repeat split; cbn; rewrite ?app_nil_r; reflexivity.
  - intros ->. cbn [Nat.eqb orb].
    unfold_handlers. break_props p. destruct st.
    break_ifs; repeat split; reflexivity.
  - intros H13 H27 H38 H40.
    destruct (Nat.eqb_spec code 13); [congruence|].
    destruct (Nat.eqb_spec code 27); [congruence|].
    destruct (Nat.eqb_spec code 38); [congruence|].
    destruct (Nat.eqb_spec code 40); [congruence|].
    cbn [orb]. destruct st. split; reflexivity.
Qed.

Lemma row_key_dispatch_witness :
  let p := withCallbacks noProps in
  let st := mkState None true "x" "" false in
  let items := [CandidateItem None] in
  selected p (exec (rowKeyDown p items entryX 0 (enterKey "")) st)
  = Some entryX
  /\ log (rowKeyDown p items entryX 0 (mkKey 9 "")) st = [].
Proof.
  cbv zeta.
  destruct (row_key_dispatch (withCallbacks noProps)
              (mkState None true "x" "" false) [CandidateItem None]
              entryX 0 (enterKey "")) as (Henter & _).
  destruct (Henter eq_refl) as (Hexec & _).
  destruct (row_key_dispatch (withCallbacks noProps)
              (mkState None true "x" "" false) [CandidateItem None]
              entryX 0 (mkKey 9 "")) as (_ & _ & Hother).
  destruct Hother as [_ Hlog]; try discriminate.
  split; [rewrite Hexec; reflexivity | exact Hlog].
Defined.

(** ** The focus after a selection *)

(** After [select(e)] one timer is pending, 10ms, which moves the focus to
    the pill of the selection display if there is one in the document when
    it fires, and otherwise does nothing; it changes no state and calls no
    callback. *)
Theorem select_moves_focus_to_pill (p : LookupProps) (st : LookupState)
    (e : Entry) (dom : Dom) :
  let st1 := exec (select p (Some e)) st in
  let pending := timeouts (log (select p (Some e)) st) in
  pending = [(FocusPill, 10)]
  /\ log (runTimers p dom pending) st1
     = (if pillElem dom then [Focus Pill] else [])
  /\ exec (runTimers p dom pending) st1 = st1.
Proof.
  cbv zeta. rewrite log_select.
  assert (Hpending : timeouts
            (((if onSelect_ p then [Call (CallSelect (Some e))] else [])
              ++ [SetTimeout FocusPill 10])
             ++ (if onComplete p then [Call (CallComplete None)] else []))
            = [(FocusPill, 10)])
    by (destruct (onSelect_ p), (onComplete p); reflexivity).
  rewrite Hpending. split; [reflexivity|].
  destruct dom as [a b c d [|]]; split; reflexivity.
Qed.

(** ** The symbol pattern of the text input *)

(** With a non-empty [symbolPattern], the input swallows a key exactly when
    the key has a non-empty character that the pattern does not match: the
    default is prevented and [onKeyDown] is not called.  Every other key
    (no pattern or an empty one, a key without character, a character that
    matches) is handed to [onKeyDown] untouched. *)
Theorem Input_key_gate (toCharacter : nat -> bool -> option string)
    (regExpMatch : string -> string -> bool)
    (props : InputProps) (shiftKey : bool) (e : KeyboardEvent) :
  let swallowed :=
    exists symbolPattern value,
      in_symbolPattern props = Some symbolPattern
      /\ symbolPattern <> ""
      /\ toCharacter (keyCode e) shiftKey = Some value
      /\ value <> ""
      /\ regExpMatch symbolPattern value = false in
  (swallowed ->
     Input_onKeyDown toCharacter regExpMatch props shiftKey e
     = [InputPreventDefault])
  /\ (~ swallowed ->
     Input_onKeyDown toCharacter regExpMatch props shiftKey e
     = (if in_onKeyDown_ props then [InputKeyDown e] else [])).
Proof.
  cbv zeta. unfold Input_onKeyDown. split.
  - intros (pattern & value & -> & Hp & -> & Hv & ->).
    destruct pattern; [congruence|]. destruct value; [congruence|].
    reflexivity.
  - intros Hnot.
    destruct (in_symbolPattern props) as [pattern|] eqn:Hpat; [|reflexivity].
    destruct pattern as [|c pattern]; [reflexivity|]. cbn [truthy].
    destruct (toCharacter (keyCode e) shiftKey) as [value|] eqn:Hchar;
      [|reflexivity].
    destruct value as [|d value]; [reflexivity|]. cbn [truthy andb].
    destruct (regExpMatch (String c pattern) (String d value)) eqn:Hmatch;
      [reflexivity|].
    exfalso. apply Hnot.
    exists (String c pattern), (String d value).
    repeat split; try assumption; discriminate.
Qed.

Lemma Input_key_gate_witness :
  let toCharacter := fun (code : nat) (_ : bool) =>
                       if (code =? 65)%nat then Some "a" else None in
  let digitsOnly := fun (_ _ : string) => false in
  let props := mkInputProps (Some "[0-9]") true false false in
  Input_onKeyDown toCharacter digitsOnly props false (mkKey 65 "")
  = [InputPreventDefault]
  /\ Input_onKeyDown toCharacter digitsOnly props false (enterKey "")
     = [InputKeyDown (enterKey "")].
Proof.
  cbv zeta. split.
  - apply (Input_key_gate
             (fun (code : nat) (_ : bool) =>
                if (code =? 65)%nat then Some "a" else None)
             (fun _ _ => false)
             (mkInputProps (Some "[0-9]") true false false) false
             (mkKey 65 "")).
    exists "[0-9]", "a". repeat split; discriminate.
  - apply (Input_key_gate
             (fun (code : nat) (_ : bool) =>
                if (code =? 65)%nat then Some "a" else None)
             (fun _ _ => false)
             (mkInputProps (Some "[0-9]") true false false) false
             (enterKey "")).
    intros (pattern & value & _ & _ & Hchar & _). discriminate Hchar.
Defined.
